(** * Simulant dashboard: a shallow embedding of [frontend/app/dashboard/page.tsx]

    The dashboard is a React component.  Its [useState] cells become the
    fields of a record, its event handlers become state transformers that
    also log the network requests they issue, and the values derived on every
    render ([stats], [allBugs], [sortedBugs], the disabled flag of the Start
    button, the results panel) become plain functions of that record.

    JavaScript numbers are idealised: counters are integers ([Z]) and scores
    are exact rationals ([Q]); binary64 rounding error is not modelled. *)

From Stdlib Require Import List String Ascii Bool Arith ZArith QArith Qround.
From Stdlib Require Import Lia Lqa Permutation Sorted Morphisms Setoid.
Import ListNotations.

Local Open Scope string_scope.
Local Open Scope list_scope.

(** ** The JavaScript built-ins the page relies on *)

Module JS.

(** [Array.prototype.includes] on an array of strings ([===] on strings is
    equality of contents). *)
Definition includes (l : list string) (x : string) : bool :=
  existsb (fun y => y =? x) l.

(** [s.startsWith(p)]. *)
Definition startsWith (s p : string) : bool := String.prefix p s.

(** [!s] on a string: only the empty string is falsy. *)
Definition not_string (s : string) : bool := s =? "".

(** [x || d] on numbers: [0] is falsy. *)
Definition or_Z (x d : Z) : Z := if (x =? 0)%Z then d else x.
Definition or_Q (x d : Q) : Q := if Qeq_bool x 0 then d else x.

(** [s || d] on an optional string: [undefined] and [""] are falsy. *)
Definition or_string (s : option string) (d : string) : string :=
  match s with
  | Some v => if not_string v then d else v
  | None => d
  end.

(** [Math.round]: the nearest integer, a tie going to the larger one. *)
Definition Math_round (x : Q) : Z := Qfloor (x + (1 # 2)).

(** [arr.reduce(f, init)] and [arr.flatMap(f)]. *)
Definition reduce {A B : Type} (f : B -> A -> B) (init : B) (l : list A) : B :=
  fold_left f l init.
Definition flatMap {A B : Type} (f : A -> list B) (l : list A) : list B :=
  flat_map f l.

(** What a property read on an object literal of numbers can produce: an
    own numeric property, something inherited from [Object.prototype] (a
    function, or the prototype object itself), or [undefined]. *)
Inductive value : Type :=
| VNum (z : Z)
| VInherited
| VUndefined.

(** The result of an arithmetic operator: a number or [NaN]. *)
Inductive number : Type :=
| Num (z : Z)
| NaN.

(** The properties every object literal inherits from [Object.prototype]. *)
Definition Object_prototype_keys : list string :=
  [ "constructor"; "hasOwnProperty"; "isPrototypeOf"; "propertyIsEnumerable";
    "toLocaleString"; "toString"; "valueOf"; "__proto__";
    "__defineGetter__"; "__defineSetter__"; "__lookupGetter__";
    "__lookupSetter__" ].

Fixpoint own (props : list (string * Z)) (key : string) : option Z :=
  match props with
  | [] => None
  | (k, v) :: rest => if k =? key then Some v else own rest key
  end.

(** [obj[key]] on an object literal: own properties first, then the
    prototype chain. *)
Definition get (props : list (string * Z)) (key : string) : value :=
  match own props key with
  | Some v => VNum v
  | None => if includes Object_prototype_keys key then VInherited else VUndefined
  end.

(** [v ?? d]: only [null] and [undefined] are replaced. *)
Definition nullish (v : value) (d : Z) : value :=
  match v with
  | VUndefined => VNum d
  | _ => v
  end.

(** [a - b]: [ToNumber] of a function, of an object or of [undefined] is
    [NaN], and [NaN] is absorbing. *)
Definition sub (a b : value) : number :=
  match a, b with
  | VNum x, VNum y => Num (x - y)
  | _, _ => NaN
  end.

(** [SortCompare] of ECMAScript: a comparator result of [NaN] counts as
    [+0]. *)
Definition SortCompare {A : Type} (comparefn : A -> A -> number) (x y : A) : Z :=
  match comparefn x y with
  | Num v => v
  | NaN => 0
  end.

(** [Array.prototype.sort] with a comparator is stable (ES2019).  With a
    consistent comparator every stable sort returns the same array; it is
    modelled by a stable insertion sort: an element stays in front of the
    later elements it does not compare greater than.  When the comparator is
    not consistent (it yields [NaN] on some pairs) ECMAScript leaves the
    order to the engine: the list computed here is then one admissible
    outcome, and is not meant to be that of a particular engine. *)
Fixpoint insert {A : Type} (comparefn : A -> A -> number) (x : A) (l : list A)
  : list A :=
  match l with
  | [] => [x]
  | y :: t =>
      if (SortCompare comparefn x y <=? 0)%Z then x :: y :: t
      else y :: insert comparefn x t
  end.

Definition sort {A : Type} (comparefn : A -> A -> number) (l : list A) : list A :=
  fold_right (insert comparefn) [] l.

End JS.

(** ** Data model: the interfaces of the page *)

Record Agent : Type := {
  a_id : string;
  name : string;
  role : string;
  color : string
}.

Definition AGENTS : list Agent :=
  [ {| a_id := "jake"; name := "Jake"; role := "Performance"; color := "bg-orange-500" |};
    {| a_id := "grandma"; name := "Rose"; role := "Accessibility"; color := "bg-pink-500" |};
    {| a_id := "alex"; name := "Alex"; role := "Security"; color := "bg-red-500" |};
    {| a_id := "priya"; name := "Priya"; role := "QA"; color := "bg-blue-500" |};
    {| a_id := "marcus"; name := "Marcus"; role := "Mobile"; color := "bg-purple-500" |} ].

Record Bug : Type := {
  title : string;
  severity : string;
  description : string;
  impact : option string;
  recommendation : option string;
  found_by : option string
}.

Record Update : Type := {
  u_type : string;
  u_persona : option string;
  u_thought : option string;
  u_phase : option string;
  u_bug : option Bug;
  u_bugs_count : option Z;
  u_quality_score : option Q;
  u_message : option string
}.

Record AgentResult : Type := {
  persona : string;
  status : string;
  bugs_found : list Bug;
  quality_score : Q;
  summary : string
}.

Record Summary : Type := {
  total_bugs : Z;
  critical : Z;
  high : Z;
  medium : Z;
  low : Z;
  avg_score : Q
}.

Record TestResults : Type := {
  tr_id : Z;
  tr_url : string;
  tr_status : string;
  tr_summary : option Summary;
  tr_results : list AgentResult
}.

Record Usage : Type := {
  tests_used : Z;
  tests_limit : Z;
  tests_remaining : Z;
  beta_active : bool;
  beta_ends : string
}.

Inductive Tab : Type := overview | bugs.

(** The [useState] cells of [Dashboard]. *)
Record Dashboard : Type := {
  url : string;
  selectedAgents : list string;
  isRunning : bool;
  isCancelling : bool;
  testId : option Z;
  updates : list Update;
  results : option TestResults;
  error : string;
  activeTab : Tab;
  usage : option Usage
}.

Definition initial : Dashboard :=
  {| url := ""; selectedAgents := ["priya"]; isRunning := false;
     isCancelling := false; testId := None; updates := []; results := None;
     error := ""; activeTab := overview; usage := None |}.

(** ** State setters

    One function per [useState] setter; each replaces a single cell. *)

Definition setUrl (v : string) (d : Dashboard) : Dashboard :=
  {| url := v; selectedAgents := selectedAgents d; isRunning := isRunning d;
     isCancelling := isCancelling d; testId := testId d; updates := updates d;
     results := results d; error := error d; activeTab := activeTab d;
     usage := usage d |}.

Definition setSelectedAgents (f : list string -> list string) (d : Dashboard)
  : Dashboard :=
  {| url := url d; selectedAgents := f (selectedAgents d); isRunning := isRunning d;
     isCancelling := isCancelling d; testId := testId d; updates := updates d;
     results := results d; error := error d; activeTab := activeTab d;
     usage := usage d |}.

Definition setIsRunning (v : bool) (d : Dashboard) : Dashboard :=
  {| url := url d; selectedAgents := selectedAgents d; isRunning := v;
     isCancelling := isCancelling d; testId := testId d; updates := updates d;
     results := results d; error := error d; activeTab := activeTab d;
     usage := usage d |}.

Definition setIsCancelling (v : bool) (d : Dashboard) : Dashboard :=
  {| url := url d; selectedAgents := selectedAgents d; isRunning := isRunning d;
     isCancelling := v; testId := testId d; updates := updates d;
     results := results d; error := error d; activeTab := activeTab d;
     usage := usage d |}.

Definition setTestId (v : option Z) (d : Dashboard) : Dashboard :=
  {| url := url d; selectedAgents := selectedAgents d; isRunning := isRunning d;
     isCancelling := isCancelling d; testId := v; updates := updates d;
     results := results d; error := error d; activeTab := activeTab d;
     usage := usage d |}.

Definition setUpdates (f : list Update -> list Update) (d : Dashboard) : Dashboard :=
  {| url := url d; selectedAgents := selectedAgents d; isRunning := isRunning d;
     isCancelling := isCancelling d; testId := testId d; updates := f (updates d);
     results := results d; error := error d; activeTab := activeTab d;
     usage := usage d |}.

Definition setResults (v : option TestResults) (d : Dashboard) : Dashboard :=
  {| url := url d; selectedAgents := selectedAgents d; isRunning := isRunning d;
     isCancelling := isCancelling d; testId := testId d; updates := updates d;
     results := v; error := error d; activeTab := activeTab d;
     usage := usage d |}.

Definition setError (v : string) (d : Dashboard) : Dashboard :=
  {| url := url d; selectedAgents := selectedAgents d; isRunning := isRunning d;
     isCancelling := isCancelling d; testId := testId d; updates := updates d;
     results := results d; error := v; activeTab := activeTab d;
     usage := usage d |}.

Definition setActiveTab (v : Tab) (d : Dashboard) : Dashboard :=
  {| url := url d; selectedAgents := selectedAgents d; isRunning := isRunning d;
     isCancelling := isCancelling d; testId := testId d; updates := updates d;
     results := results d; error := error d; activeTab := v;
     usage := usage d |}.

Definition setUsage (v : option Usage) (d : Dashboard) : Dashboard :=
  {| url := url d; selectedAgents := selectedAgents d; isRunning := isRunning d;
     isCancelling := isCancelling d; testId := testId d; updates := updates d;
     results := results d; error := error d; activeTab := activeTab d;
     usage := v |}.

(** ** Event handlers

    A handler maps the state of the render it was created in to the next
    state and to the list of network operations it started, in order. *)

Inductive Request : Type :=
| PostStart (target : string) (personas : list string) (user_id : string)
| PostCancel (id : Z)
| GetResults (id : Z)
| GetUsage (user_id : string)
| OpenWebSocket (id : Z).

Definition Handler : Type := Dashboard -> Dashboard * list Request.

Definition skip : Handler := fun d => (d, []).

Definition set (f : Dashboard -> Dashboard) : Handler := fun d => (f d, []).

Definition send (r : Request) : Handler := fun d => (d, [r]).

Definition seq (h k : Handler) : Handler :=
  fun d =>
    let (d1, out1) := h d in
    let (d2, out2) := k d1 in
    (d2, out1 ++ out2).

Declare Scope handler_scope.
Delimit Scope handler_scope with handler.
Notation "h ;; k" := (seq h k) (at level 61, right associativity) : handler_scope.
Local Open Scope handler_scope.

(** What the backend answers to a [fetch]: a parsed body, or a failure of the
    call itself (rejected promise, unreadable body). *)
Inductive StartReply : Type :=
| StartOk (test_id : Z)
| StartNotOk (detail : option string)
| StartThrew (message : option string).

(** [toggleAgent]: the functional update handed to [setSelectedAgents]. *)
Definition toggle (id : string) (prev : list string) : list string :=
  if JS.includes prev id then filter (fun p => negb (p =? id)) prev
  else prev ++ [id].

Definition toggleAgent (id : string) : Handler :=
  set (setSelectedAgents (toggle id)).

(** The [All] button. *)
Definition selectAll : Handler :=
  set (setSelectedAgents (fun _ => map a_id AGENTS)).

(** [refreshUsage]: asks for the usage record when [user?.id] is truthy (a
    user is signed in and the id is not the empty string); the answer, if
    any, replaces the displayed record. *)
Definition refreshUsage (user : option string) (reply : option Usage) : Handler :=
  match user with
  | Some uid =>
      if JS.not_string uid then skip
      else
        send (GetUsage uid) ;;
        match reply with
        | Some u => set (setUsage (Some u))
        | None => skip
        end
  | None => skip
  end.

(** [fetchResults]. *)
Definition fetchResults (id : Z) (reply : option TestResults) : Handler :=
  send (GetResults id) ;;
  match reply with
  | Some r => set (setResults (Some r))
  | None => set (setError "Failed to fetch results")
  end.

(** [ws.onmessage] of [connectWebSocket], applied to the parsed frame. *)
Definition onmessage (id : Z) (update : Update) (reply : option TestResults)
  : Handler :=
  fun d =>
    if JS.includes ["keepalive"; "pong"; "connected"] (u_type update) then skip d
    else
      (set (setUpdates (fun prev => prev ++ [update])) ;;
       (if u_type update =? "test_completed"
        then set (setIsRunning false) ;; set (setIsCancelling false) ;;
             fetchResults id reply
        else skip) ;;
       (if u_type update =? "test_cancelling"
        then set (setIsCancelling true)
        else skip)) d.

(** [ws.onerror]. *)
Definition onerror : Handler :=
  set (setError "Connection failed. Is the backend running?").

(** [usage && usage.tests_remaining <= 0]. *)
Definition exhausted (u : option Usage) : bool :=
  match u with
  | Some r => (tests_remaining r <=? 0)%Z
  | None => false
  end.

(** [startTest].  [user] is [user?.id]; [reply] is the outcome of the start
    request and [fresh] the answer to the usage refresh that follows an
    accepted start. *)
Definition startTest (user : option string) (reply : StartReply)
    (fresh : option Usage) : Handler :=
  fun d =>
    if JS.not_string (url d) || (List.length (selectedAgents d) =? 0)%nat then skip d
    else if negb (JS.startsWith (url d) "http://")
            && negb (JS.startsWith (url d) "https://")
    then set (setError "URL must start with http:// or https://") d
    else if exhausted (usage d)
    then set (setError "You've used all your free tests. Paid plans coming soon!") d
    else
      (set (setIsRunning true) ;;
       set (setIsCancelling false) ;;
       set (setUpdates (fun _ => [])) ;;
       set (setResults None) ;;
       set (setError "") ;;
       set (setActiveTab overview) ;;
       send (PostStart (url d) (selectedAgents d) (JS.or_string user "anonymous")) ;;
       match reply with
       | StartOk test_id =>
           set (setTestId (Some test_id)) ;;
           send (OpenWebSocket test_id) ;;
           refreshUsage user fresh
       | StartNotOk detail =>
           set (setError (JS.or_string detail "Failed to start")) ;;
           set (setIsRunning false)
       | StartThrew message =>
           set (setError (match message with
                          | Some m => m
                          | None => "Failed to start test"
                          end)) ;;
           set (setIsRunning false)
       end) d.

(** [stopTest]. *)
Definition stopTest (failed : bool) : Handler :=
  fun d =>
    match testId d with
    | None => skip d
    | Some id =>
        if (id =? 0)%Z then skip d
        else
          (set (setIsCancelling true) ;;
           send (PostCancel id) ;;
           (if failed then set (setError "Failed to cancel test") else skip)) d
    end.

(** ** Values derived on every render *)

(** The fallback aggregate computed by the page when the snapshot has no
    [summary] of its own.  The counters are integers, as in the code; the
    average is computed here in exact arithmetic, where the code rounds
    every operation to binary64. *)
Definition count (sev : string) (r : AgentResult) : Z :=
  JS.or_Z (Z.of_nat (List.length (filter (fun b => severity b =? sev) (bugs_found r)))) 0.

Definition fallback (rs : list AgentResult) : Summary :=
  {| total_bugs :=
       JS.reduce (fun a r => a + JS.or_Z (Z.of_nat (List.length (bugs_found r))) 0)%Z 0%Z rs;
     critical := JS.reduce (fun a r => a + count "critical" r)%Z 0%Z rs;
     high := JS.reduce (fun a r => a + count "high" r)%Z 0%Z rs;
     medium := JS.reduce (fun a r => a + count "medium" r)%Z 0%Z rs;
     low := JS.reduce (fun a r => a + count "low" r)%Z 0%Z rs;
     avg_score :=
       if (List.length rs =? 0)%nat then 0%Q
       else
         (inject_Z
            (JS.Math_round
               (JS.reduce (fun a r => a + JS.or_Q (quality_score r) 0)%Q 0%Q rs
                / inject_Z (Z.of_nat (List.length rs)) * 10))
          / 10)%Q |}.

(** [stats]: the server's summary when there is one, else the fallback;
    [null] while no snapshot has been fetched.  (An array is always truthy,
    so the test on [results.results] passes for every snapshot.) *)
Definition stats (res : option TestResults) : option Summary :=
  match res with
  | None => None
  | Some t =>
      match tr_summary t with
      | Some s => Some s
      | None => Some (fallback (tr_results t))
      end
  end.

(** A row of the [All Issues] tab: the bug spread into a new object together
    with the persona that found it. *)
Record Issue : Type := {
  bug : Bug;
  agent : string
}.

Definition allBugs (res : option TestResults) : list Issue :=
  match res with
  | None => []
  | Some t =>
      JS.flatMap
        (fun r => map (fun b => {| bug := b; agent := persona r |}) (bugs_found r))
        (tr_results t)
  end.

(** The object literal [order] of the comparator. *)
Definition order : list (string * Z) :=
  [ ("critical", 0%Z); ("high", 1%Z); ("medium", 2%Z); ("low", 3%Z) ].

(** The comparator handed to [sort]:
    [(order[a.severity] ?? 4) - (order[b.severity] ?? 4)]. *)
Definition bySeverity (a b : Issue) : JS.number :=
  JS.sub (JS.nullish (JS.get order (severity (bug a))) 4)
         (JS.nullish (JS.get order (severity (bug b))) 4).

Definition sortedBugs (res : option TestResults) : list Issue :=
  JS.sort bySeverity (allBugs res).

(** The [disabled] attribute of the Start Test button. *)
Definition startDisabled (d : Dashboard) : bool :=
  JS.not_string (url d)
  || (List.length (selectedAgents d) =? 0)%nat
  || exhausted (usage d).

(** The red banner: shown when [error] is a non-empty string. *)
Definition errorBanner (d : Dashboard) : option string :=
  if JS.not_string (error d) then None else Some (error d).

(** The results section of the page, present when both [results] and
    [stats] are truthy: the notice for a stopped run, the five cards, the
    counter of the [All Issues] tab and the body of the active tab. *)
Inductive TabBody : Type :=
| AgentReports (reports : list AgentResult)
| AllIssues (issues : list Issue).

Record ResultsSection : Type := {
  stopped_notice : bool;
  card_total : Z;
  card_critical : Z;
  card_high : Z;
  card_medium : Z;
  card_avg : Q;
  tab_counter : Z;
  body : TabBody
}.

Definition resultsSection (d : Dashboard) : option ResultsSection :=
  match results d, stats (results d) with
  | Some t, Some s =>
      Some {| stopped_notice := tr_status t =? "cancelled";
              card_total := total_bugs s;
              card_critical := critical s;
              card_high := high s;
              card_medium := medium s;
              card_avg := avg_score s;
              tab_counter := total_bugs s;
              body := match activeTab d with
                      | overview => AgentReports (tr_results t)
                      | bugs => AllIssues (sortedBugs (results d))
                      end |}
  | _, _ => None
  end.

(** ** Vocabulary of the properties *)

(** The ids of the catalog. *)
Definition catalog : list string := map a_id AGENTS.

(** The invariant of the selection. *)
Definition selection_ok (sel : list string) : Prop :=
  NoDup sel /\ forall id, In id sel -> In id catalog.

(** The user actions that change the selection: the button of one of the
    rendered agents, or [All]. *)
Inductive Click : Type :=
| ClickAgent (a : Agent)
| ClickAll.

Definition available (c : Click) : Prop :=
  match c with
  | ClickAgent a => In a AGENTS
  | ClickAll => True
  end.

Definition click (c : Click) : Handler :=
  match c with
  | ClickAgent a => toggleAgent (a_id a)
  | ClickAll => selectAll
  end.

(** The state after a sequence of such clicks. *)
Definition after (cs : list Click) (d : Dashboard) : Dashboard :=
  fold_left (fun st c => fst (click c st)) cs d.

(** The four enumerated severities and their rank. *)
Definition enumerated (sev : string) : bool :=
  JS.includes ["critical"; "high"; "medium"; "low"] sev.

Definition rank (sev : string) : Z :=
  if sev =? "critical" then 0
  else if sev =? "high" then 1
  else if sev =? "medium" then 2
  else if sev =? "low" then 3
  else 4.

(** A severity string that names a property inherited from
    [Object.prototype]. *)
Definition inherited (sev : string) : bool :=
  JS.includes JS.Object_prototype_keys sev.

(** The rank of the severity of a row. *)
Definition issue_rank (i : Issue) : Z := rank (severity (bug i)).

(** A snapshot in which one agent reports, in this order, a low bug, a bug
    whose severity string is [constructor], and a critical bug. *)
Definition report (sev : string) : Bug :=
  {| title := "Issue"; severity := sev; description := "Details";
     impact := None; recommendation := None; found_by := None |}.

Definition shadowed : TestResults :=
  {| tr_id := 1; tr_url := "https://example.com"; tr_status := "completed";
     tr_summary := None;
     tr_results :=
       [ {| persona := "priya"; status := "completed";
            bugs_found := [report "low"; report "constructor"; report "critical"];
            quality_score := 5; summary := "Three issues" |} ] |}.

(** [a] occurs somewhere before [b] in [l]. *)
Definition before {A : Type} (a b : A) (l : list A) : Prop :=
  exists l1 l2 l3, l = l1 ++ a :: l2 ++ b :: l3.

(** The sum of a list of integers. *)
Definition Zsum (l : list Z) : Z := fold_right Z.add 0%Z l.

(** Every bug of the snapshot, agent after agent. *)
Definition bugs_of (rs : list AgentResult) : list Bug := flat_map bugs_found rs.

(** Order and classes induced by an integer key. *)
Definition key_le {A : Type} (key : A -> Z) (a b : A) : Prop :=
  (key a <= key b)%Z.

Definition keyed {A : Type} (key : A -> Z) (k : Z) (a : A) : bool :=
  (key a =? k)%Z.

(** The number of bugs of a given severity in a list, and the number of
    those whose severity is none of the four enumerated ones. *)
Definition having (sev : string) (l : list Bug) : Z :=
  Z.of_nat (List.length (filter (fun b => severity b =? sev) l)).

Definition others (l : list Bug) : Z :=
  Z.of_nat (List.length (filter (fun b => negb (enumerated (severity b))) l)).

(** The run-related cells of the state. *)
Definition run_state (d : Dashboard)
  : bool * bool * option Z * list Update * option TestResults :=
  (isRunning d, isCancelling d, testId d, updates d, results d).

(** The snapshot with another status. *)
Definition with_status (s : string) (t : TestResults) : TestResults :=
  {| tr_id := tr_id t; tr_url := tr_url t; tr_status := s;
     tr_summary := tr_summary t; tr_results := tr_results t |}.

(** Is the frame one of the three transport-level control frames? *)
Definition control (u : Update) : bool :=
  JS.includes ["keepalive"; "pong"; "connected"] (u_type u).

(** The state after a sequence of frames has been received on the socket of
    run [id], each frame paired with the answer a results fetch would get. *)
Definition receive (id : Z) (frames : list (Update * option TestResults))
    (d : Dashboard) : Dashboard :=
  fold_left (fun st fr => fst (onmessage id (fst fr) (snd fr) st)) frames d.

(** ** The rest of the page: theme, badges, cards, panels, socket address *)

(** The part of the browser the theme code touches: the [theme] item of
    [localStorage] and the presence of the class [dark] on the document
    element. *)
Record Browser : Type := {
  theme_item : option string;
  dark_class : bool
}.

(** [ThemeToggle]: its [dark] cell, next to the browser it acts on. *)
Record Theme : Type := {
  dark : bool;
  browser : Browser
}.

(** [ThemeToggle] as created, before its effect has run. *)
Definition themeCreated (b : Browser) : Theme :=
  {| dark := true; browser := b |}.

(** [stored ? stored === 'dark' : true]. *)
Definition storedDark (stored : option string) : bool :=
  match stored with
  | Some v => if JS.not_string v then true else v =? "dark"
  | None => true
  end.

(** The effect run when [ThemeToggle] mounts. *)
Definition themeMount (t : Theme) : Theme :=
  let isDark := storedDark (theme_item (browser t)) in
  {| dark := isDark;
     browser := {| theme_item := theme_item (browser t);
                   dark_class := isDark |} |}.

(** [toggle] of [ThemeToggle]. *)
Definition themeToggle (t : Theme) : Theme :=
  let newDark := negb (dark t) in
  {| dark := newDark;
     browser := {| theme_item := Some (if newDark then "dark" else "light");
                   dark_class := newDark |} |}.

(** The effect of [LandingPage]:
    [theme = localStorage.getItem('theme') || 'dark']. *)
Definition landingMount (b : Browser) : Browser :=
  let theme := JS.or_string (theme_item b) "dark" in
  {| theme_item := theme_item b; dark_class := theme =? "dark" |}.

(** [SeverityBadge].  [cls] is an object literal of strings, read with
    [cls[severity] || cls.low]: an own class name, else something inherited
    from [Object.prototype] (truthy, so it is what the template prints), else
    the class of [low]. *)
Definition cls : list (string * string) :=
  [ ("critical", "badge-critical"); ("high", "badge-high");
    ("medium", "badge-medium"); ("low", "badge-low") ].

Fixpoint own_string (props : list (string * string)) (key : string)
  : option string :=
  match props with
  | [] => None
  | (k, v) :: rest => if k =? key then Some v else own_string rest key
  end.

Inductive BadgeStyle : Type :=
| Style (class : string)
| InheritedStyle.

Record Badge : Type := {
  badge_style : BadgeStyle;
  badge_label : string
}.

Definition cls_low : BadgeStyle :=
  match own_string cls "low" with
  | Some c => Style c
  | None => Style "undefined"
  end.

Definition SeverityBadge (sev : string) : Badge :=
  {| badge_style :=
       match own_string cls sev with
       | Some c => if JS.not_string c then cls_low else Style c
       | None =>
           if JS.includes JS.Object_prototype_keys sev then InheritedStyle
           else cls_low
       end;
     badge_label := sev |}.

(** A card of the [Agent Reports] tab.  The agent is looked up in the
    catalog with [AGENTS.find(a => a.id === r.persona)]; every use of it
    falls back on the raw persona or on grey. *)
Record AgentCard : Type := {
  avatar_color : string;
  avatar_letter : option ascii;
  card_name : string;
  card_role : option string;
  card_issues : Z;
  card_score : Q;
  card_summary : string
}.

Definition findAgent (p : string) : option Agent :=
  find (fun a => a_id a =? p) AGENTS.

Definition agentCard (r : AgentResult) : AgentCard :=
  let agent := findAgent (persona r) in
  {| avatar_color := JS.or_string (option_map color agent) "bg-gray-500";
     avatar_letter :=
       match agent with
       | Some a =>
           match String.get 0 (name a) with
           | Some c => Some c
           | None => String.get 0 (persona r)
           end
       | None => String.get 0 (persona r)
       end;
     card_name := JS.or_string (option_map name agent) (persona r);
     card_role := option_map role agent;
     card_issues := JS.or_Z (Z.of_nat (List.length (bugs_found r))) 0;
     card_score := quality_score r;
     card_summary := summary r |}.

(** Which panels and which main button the page shows. *)
Definition liveFeedShown (d : Dashboard) : bool := isRunning d.

Inductive MainButton : Type :=
| StopButton (disabled : bool)
| StartButton (disabled : bool).

Definition mainButton (d : Dashboard) : MainButton :=
  if isRunning d then StopButton (isCancelling d)
  else StartButton (startDisabled d).

(** [s.replace(pat, by)] with a string pattern: the first occurrence only
    ([by] holds no [$]). *)
Definition replace (s pat by' : string) : string :=
  match index 0 pat s with
  | Some i =>
      substring 0 i s ++ by'
      ++ substring (i + String.length pat)
           (String.length s - (i + String.length pat)) s
  | None => s
  end.

(** The address [connectWebSocket] opens, [id] being the printed run id. *)
Definition socketUrl (API_URL : string) (id : string) : string :=
  replace API_URL "http" "ws" ++ "/ws/" ++ id.

(** The conditions under which [startTest] goes past its three guards. *)
Definition admitted (d : Dashboard) : Prop :=
  url d <> "" /\ selectedAgents d <> []
  /\ (JS.startsWith (url d) "http://" = true
      \/ JS.startsWith (url d) "https://" = true)
  /\ exhausted (usage d) = false.

(** Is the request a start request? *)
Definition is_start (r : Request) : bool :=
  match r with
  | PostStart _ _ _ => true
  | _ => false
  end.

(** * Properties *)

(** ** Facts about the built-ins *)

Section Builtins.

Lemma includes_In (l : list string) (x : string) :
  JS.includes l x = true <-> In x l.
Proof.
  unfold JS.includes. rewrite existsb_exists. split.
  - intros [y [Hy Heq]]. apply String.eqb_eq in Heq. now subst.
  - intros H. exists x. split; [assumption | apply String.eqb_refl].
Qed.

Lemma includes_not_In (l : list string) (x : string) :
  JS.includes l x = false <-> ~ In x l.
Proof.
  rewrite <- includes_In. destruct (JS.includes l x); split; intro H;
    try reflexivity; try discriminate; try (intro; discriminate).
  now elim H.
Qed.

Lemma not_string_true (s : string) : JS.not_string s = true <-> s = "".
Proof. unfold JS.not_string. apply String.eqb_eq. Qed.

Lemma not_string_false (s : string) : JS.not_string s = false <-> s <> "".
Proof. unfold JS.not_string. apply String.eqb_neq. Qed.

Lemma length_eqb_0 {A : Type} (l : list A) :
  (List.length l =? 0)%nat = true <-> l = [].
Proof.
  destruct l; simpl; split; intro H; try reflexivity; discriminate.
Qed.

Lemma or_Z_0 (x : Z) : JS.or_Z x 0 = x.
Proof.
  unfold JS.or_Z. destruct (Z.eqb_spec x 0); congruence.
Qed.

Lemma or_Q_0 (x : Q) : (JS.or_Q x 0 == x)%Q.
Proof.
  unfold JS.or_Q. destruct (Qeq_bool x 0) eqn:E; [| reflexivity].
  apply Qeq_bool_eq in E. now symmetry.
Qed.

(** Removing [id] from a list that does not hold it changes nothing. *)
Lemma filter_out_absent (id : string) (l : list string) :
  ~ In id l -> filter (fun p => negb (p =? id)) l = l.
Proof.
  induction l as [| x l IH]; simpl; intros H; [reflexivity |].
  destruct (String.eqb_spec x id) as [-> | Hne]; simpl.
  - elim H. now left.
  - f_equal. apply IH. intro Hin. apply H. now right.
Qed.

Lemma filter_out_In (id x : string) (l : list string) :
  In x (filter (fun p => negb (p =? id)) l) <-> In x l /\ x <> id.
Proof.
  rewrite filter_In. split; intros [H1 H2]; split; try assumption.
  - apply negb_true_iff in H2. now apply String.eqb_neq.
  - apply negb_true_iff. now apply String.eqb_neq.
Qed.

Lemma NoDup_filter {A : Type} (f : A -> bool) (l : list A) :
  NoDup l -> NoDup (filter f l).
Proof.
  induction 1 as [| x l Hx Hl IH]; simpl; [constructor |].
  destruct (f x); [| assumption].
  constructor; [| assumption].
  rewrite filter_In. tauto.
Qed.

Lemma NoDup_snoc {A : Type} (x : A) (l : list A) :
  NoDup l -> ~ In x l -> NoDup (l ++ [x]).
Proof.
  intros Hl Hx. apply NoDup_app; [assumption | repeat constructor; auto | ].
  intros a Ha [<- | []]. now apply Hx.
Qed.

End Builtins.

(** ** The agent selection *)

Section Selection.

Lemma toggle_In (id x : string) (sel : list string) :
  In x (toggle id sel) ->
  In x sel \/ x = id.
Proof.
  unfold toggle. destruct (JS.includes sel id).
  - rewrite filter_out_In. tauto.
  - rewrite in_app_iff. simpl. intuition.
Qed.

Lemma toggle_NoDup (id : string) (sel : list string) :
  NoDup sel -> NoDup (toggle id sel).
Proof.
  intros Hsel. unfold toggle. destruct (JS.includes sel id) eqn:E.
  - now apply NoDup_filter.
  - apply NoDup_snoc; [assumption | now apply includes_not_In].
Qed.

Lemma toggle_present (id : string) (sel : list string) :
  In id sel -> toggle id sel = filter (fun p => negb (p =? id)) sel.
Proof.
  intros H. unfold toggle. apply includes_In in H. now rewrite H.
Qed.

Lemma toggle_absent (id : string) (sel : list string) :
  ~ In id sel -> toggle id sel = sel ++ [id].
Proof.
  intros H. unfold toggle. apply includes_not_In in H. now rewrite H.
Qed.

Lemma catalog_NoDup : NoDup catalog.
Proof.
  unfold catalog. simpl.
  repeat (constructor; [simpl; intuition discriminate |]). constructor.
Qed.

Lemma toggle_ok (id : string) (sel : list string) :
  In id catalog -> selection_ok sel -> selection_ok (toggle id sel).
Proof.
  intros Hid [Hnd Hsub]. split.
  - now apply toggle_NoDup.
  - intros x Hx. destruct (toggle_In _ _ _ Hx) as [H | ->]; auto.
Qed.

(** Removing an element and putting it back at the end permutes the
    list, provided it occurred once. *)
Lemma filter_out_snoc_Permutation (id : string) (l : list string) :
  NoDup l -> In id l ->
  Permutation (filter (fun p => negb (p =? id)) l ++ [id]) l.
Proof.
  induction 1 as [| x l Hx Hl IH]; simpl; intros Hin; [contradiction |].
  destruct (String.eqb_spec x id) as [-> | Hne]; simpl.
  - rewrite filter_out_absent by assumption.
    rewrite Permutation_app_comm. reflexivity.
  - constructor. apply IH. destruct Hin; [contradiction | assumption].
Qed.

End Selection.

Lemma click_ok (c : Click) (d : Dashboard) :
  available c ->
  selection_ok (selectedAgents d) ->
  selection_ok (selectedAgents (fst (click c d))).
Proof.
  destruct c as [a |]; simpl; intros Hav Hok.
  - apply toggle_ok; [| assumption].
    unfold catalog. now apply in_map.
  - split; [apply catalog_NoDup | auto].
Qed.

Lemma initial_ok : selection_ok (selectedAgents initial).
Proof.
  split.
  - repeat constructor. simpl. tauto.
  - simpl. intros id [<- | []]. unfold catalog. simpl. tauto.
Qed.

(** C8.  The selection holds no duplicate and only catalog ids: this is so
    in the initial state, every click on an agent button (the buttons are
    those of [AGENTS], each calling [toggleAgent] with its own id) and every
    click on [All] keeps it so, hence it is so after any sequence of clicks,
    and [All] makes the selection exactly the catalog. *)
Theorem selectedAgents_invariant :
  selection_ok (selectedAgents initial)
  /\ (forall (c : Click) (d : Dashboard),
        available c ->
        selection_ok (selectedAgents d) ->
        selection_ok (selectedAgents (fst (click c d))))
  /\ (forall cs : list Click,
        Forall available cs -> selection_ok (selectedAgents (after cs initial)))
  /\ (forall d : Dashboard, selectedAgents (fst (selectAll d)) = catalog).
Proof.
  split; [exact initial_ok |].
  split; [exact click_ok |].
  split; [| reflexivity].
  intros cs Hcs. unfold after.
  generalize initial_ok. generalize initial.
  induction Hcs as [| c cs Hc Hcs IH]; intros d Hd; simpl; [exact Hd |].
  apply IH. now apply click_ok.
Qed.

Lemma selectedAgents_invariant_witness :
  let jake := {| a_id := "jake"; name := "Jake"; role := "Performance";
                 color := "bg-orange-500" |} in
  Forall available [ClickAgent jake; ClickAll; ClickAgent jake]
  /\ selection_ok
       (selectedAgents (after [ClickAgent jake; ClickAll; ClickAgent jake] initial))
  /\ selectedAgents (after [ClickAgent jake; ClickAll; ClickAgent jake] initial)
     = ["grandma"; "alex"; "priya"; "marcus"].
Proof.
  cbv zeta.
  assert (Hav : Forall available
                  [ClickAgent {| a_id := "jake"; name := "Jake";
                                 role := "Performance"; color := "bg-orange-500" |};
                   ClickAll;
                   ClickAgent {| a_id := "jake"; name := "Jake";
                                 role := "Performance"; color := "bg-orange-500" |}]).
  { repeat constructor; simpl; auto. }
  split; [exact Hav |].
  split; [| reflexivity].
  exact (proj1 (proj2 (proj2 selectedAgents_invariant)) _ Hav).
Defined.

(** C10, as stated, fails: toggling a selected id that is not the last one
    twice moves it to the end of the list. *)
Lemma toggle_twice_counterexample :
  NoDup ["jake"; "priya"]
  /\ toggle "jake" (toggle "jake" ["jake"; "priya"]) = ["priya"; "jake"]
  /\ toggle "jake" (toggle "jake" ["jake"; "priya"]) <> ["jake"; "priya"].
Proof.
  split; [| split].
  - repeat constructor; simpl; intuition discriminate.
  - reflexivity.
  - discriminate.
Qed.

(** C10, amended.  On a duplicate-free selection, toggling the same id twice
    gives back the same set of ids, still without duplicates: the very same
    list when the id was not selected, and otherwise the list with the id
    moved to its end. *)
Theorem toggle_twice (id : string) (sel : list string) :
  NoDup sel ->
  Permutation (toggle id (toggle id sel)) sel
  /\ NoDup (toggle id (toggle id sel))
  /\ (~ In id sel -> toggle id (toggle id sel) = sel)
  /\ (In id sel ->
      toggle id (toggle id sel) = filter (fun p => negb (p =? id)) sel ++ [id]).
Proof.
  intros Hnd.
  assert (Hout : ~ In id sel -> toggle id (toggle id sel) = sel).
  { intros Hout. rewrite (toggle_absent _ _ Hout).
    rewrite toggle_present by (rewrite in_app_iff; simpl; auto).
    rewrite filter_app. simpl. rewrite String.eqb_refl. simpl.
    rewrite app_nil_r. now apply filter_out_absent. }
  assert (Hin : In id sel ->
                toggle id (toggle id sel)
                = filter (fun p => negb (p =? id)) sel ++ [id]).
  { intros Hin. rewrite (toggle_present _ _ Hin).
    apply toggle_absent. rewrite filter_out_In. tauto. }
  split; [| split; [| split]]; try assumption.
  - destruct (in_dec string_dec id sel) as [Hi | Ho].
    + rewrite (Hin Hi). now apply filter_out_snoc_Permutation.
    + now rewrite (Hout Ho).
  - now do 2 apply toggle_NoDup.
Qed.

Lemma toggle_twice_witness :
  NoDup ["jake"; "priya"]
  /\ Permutation (toggle "priya" (toggle "priya" ["jake"; "priya"])) ["jake"; "priya"].
Proof.
  assert (H : NoDup ["jake"; "priya"]).
  { repeat constructor; simpl; intuition discriminate. }
  split; [exact H | exact (proj1 (toggle_twice "priya" ["jake"; "priya"] H))].
Defined.

(** ** The fallback aggregate: counters *)

Section Counters.

(** A [reduce] that adds one term per element is the sum of the terms. *)
Lemma reduce_add {A : Type} (f : A -> Z) (l : list A) (acc : Z) :
  JS.reduce (fun a r => a + f r)%Z acc l = (acc + Zsum (map f l))%Z.
Proof.
  unfold JS.reduce. revert acc.
  induction l as [| x l IH]; simpl; intros acc; [lia |].
  rewrite IH. lia.
Qed.


Lemma count_having (sev : string) (r : AgentResult) :
  count sev r = having sev (bugs_found r).
Proof. unfold count, having. apply or_Z_0. Qed.

Lemma having_app (sev : string) (l k : list Bug) :
  having sev (l ++ k) = (having sev l + having sev k)%Z.
Proof. unfold having. rewrite filter_app, length_app. lia. Qed.

Lemma others_app (l k : list Bug) : others (l ++ k) = (others l + others k)%Z.
Proof. unfold others. rewrite filter_app, length_app. lia. Qed.

Lemma others_nonneg (l : list Bug) : (0 <= others l)%Z.
Proof. unfold others. lia. Qed.

Lemma others_zero (l : list Bug) :
  others l = 0%Z <-> forall b, In b l -> enumerated (severity b) = true.
Proof.
  unfold others. induction l as [| b l IH]; simpl.
  - split; [intros _ x [] | reflexivity].
  - destruct (enumerated (severity b)) eqn:E; simpl.
    + rewrite IH. split.
      * intros H x [<- | Hx]; auto.
      * intros H x Hx. apply H. now right.
    + split; [lia |]. intros H. specialize (H b (or_introl eq_refl)).
      congruence.
Qed.

Lemma having_cons (sev : string) (b : Bug) (l : list Bug) :
  having sev (b :: l)
  = ((if (severity b =? sev)%string then 1 else 0) + having sev l)%Z.
Proof.
  unfold having. simpl. destruct (severity b =? sev); simpl List.length; lia.
Qed.

Lemma others_cons (b : Bug) (l : list Bug) :
  others (b :: l)
  = ((if enumerated (severity b) then 0 else 1) + others l)%Z.
Proof.
  unfold others. simpl.
  destruct (enumerated (severity b)); simpl List.length; lia.
Qed.

(** A severity string is at most one of the four enumerated ones. *)
Lemma severity_class (sev : string) :
  ((if (sev =? "critical")%string then 1 else 0)
   + (if (sev =? "high")%string then 1 else 0)
   + (if (sev =? "medium")%string then 1 else 0)
   + (if (sev =? "low")%string then 1 else 0)
   + (if enumerated sev then 0 else 1) = 1)%Z.
Proof.
  unfold enumerated, JS.includes. cbn [existsb].
  rewrite !(String.eqb_sym _ sev).
  destruct (String.eqb_spec sev "critical") as [-> | H1]; [reflexivity |].
  destruct (String.eqb_spec sev "high") as [-> | H2]; [reflexivity |].
  destruct (String.eqb_spec sev "medium") as [-> | H3]; [reflexivity |].
  destruct (String.eqb_spec sev "low") as [-> | H4]; reflexivity.
Qed.

(** Each bug falls in exactly one of five classes: the four enumerated
    severities and the rest. *)
Lemma partition_by_severity (l : list Bug) :
  Z.of_nat (List.length l)
  = (having "critical" l + having "high" l + having "medium" l
     + having "low" l + others l)%Z.
Proof.
  induction l as [| b l IH]; [reflexivity |].
  rewrite !having_cons, others_cons.
  pose proof (severity_class (severity b)) as Hb.
  simpl List.length. lia.
Qed.

Lemma Zsum_lengths (rs : list AgentResult) :
  Zsum (map (fun r => Z.of_nat (List.length (bugs_found r))) rs)
  = Z.of_nat (List.length (bugs_of rs)).
Proof.
  unfold bugs_of. induction rs as [| r rs IH]; simpl; [reflexivity |].
  rewrite length_app, IH. lia.
Qed.

Lemma Zsum_having (sev : string) (rs : list AgentResult) :
  Zsum (map (count sev) rs) = having sev (bugs_of rs).
Proof.
  unfold bugs_of. induction rs as [| r rs IH]; simpl; [reflexivity |].
  rewrite having_app, IH, count_having. reflexivity.
Qed.

Lemma fallback_total (rs : list AgentResult) :
  total_bugs (fallback rs)
  = Zsum (map (fun r => Z.of_nat (List.length (bugs_found r))) rs).
Proof.
  simpl. rewrite reduce_add. simpl. f_equal.
  apply map_ext. intros r. apply or_Z_0.
Qed.

Lemma fallback_bucket (rs : list AgentResult) :
  critical (fallback rs) = having "critical" (bugs_of rs)
  /\ high (fallback rs) = having "high" (bugs_of rs)
  /\ medium (fallback rs) = having "medium" (bugs_of rs)
  /\ low (fallback rs) = having "low" (bugs_of rs).
Proof.
  simpl. rewrite !reduce_add, !Zsum_having. simpl. tauto.
Qed.

End Counters.

(** C2.  When the snapshot brings no summary, the aggregate exists and its
    [total_bugs] is the sum, over the per-agent results, of the length of
    [bugs_found]. *)
Theorem total_bugs_is_sum_of_lengths (t : TestResults) :
  tr_summary t = None ->
  exists s : Summary,
    stats (Some t) = Some s
    /\ total_bugs s
       = Zsum (map (fun r => Z.of_nat (List.length (bugs_found r))) (tr_results t)).
Proof.
  intros Hsum. exists (fallback (tr_results t)). split.
  - unfold stats. now rewrite Hsum.
  - apply fallback_total.
Qed.

(** C9.  In the fallback aggregate the four buckets add up to at most
    [total_bugs]; they add up to it exactly when every bug carries one of the
    four enumerated severity strings; and the difference is the number of
    bugs with another severity string, which are counted in [total_bugs]
    and in no bucket. *)
Theorem buckets_against_total (t : TestResults) :
  tr_summary t = None ->
  exists s : Summary,
    stats (Some t) = Some s
    /\ (critical s + high s + medium s + low s <= total_bugs s)%Z
    /\ ((critical s + high s + medium s + low s = total_bugs s)%Z
        <-> forall r b, In r (tr_results t) -> In b (bugs_found r) ->
                        In (severity b) ["critical"; "high"; "medium"; "low"])
    /\ (total_bugs s
        = critical s + high s + medium s + low s + others (bugs_of (tr_results t)))%Z.
Proof.
  intros Hsum. exists (fallback (tr_results t)).
  destruct (fallback_bucket (tr_results t)) as (Hc & Hh & Hm & Hl).
  pose proof (fallback_total (tr_results t)) as Ht.
  rewrite Zsum_lengths, partition_by_severity in Ht.
  pose proof (others_nonneg (bugs_of (tr_results t))) as Hpos.
  rewrite Hc, Hh, Hm, Hl, Ht.
  split; [unfold stats; now rewrite Hsum |].
  split; [lia |]. split; [| lia].
  transitivity (others (bugs_of (tr_results t)) = 0%Z); [lia |].
  rewrite others_zero. unfold bugs_of. split.
  - intros H r b Hr Hb. apply includes_In. apply H.
    apply in_flat_map. now exists r.
  - intros H b Hb. apply in_flat_map in Hb. destruct Hb as (r & Hr & Hb).
    apply includes_In. now apply (H r).
Qed.

Lemma buckets_against_total_witness :
  tr_summary shadowed = None
  /\ exists s : Summary,
       stats (Some shadowed) = Some s
       /\ (critical s + high s + medium s + low s <= total_bugs s)%Z
       /\ (total_bugs s
           = critical s + high s + medium s + low s
             + others (bugs_of (tr_results shadowed)))%Z.
Proof.
  split; [reflexivity |].
  destruct (buckets_against_total shadowed eq_refl) as (s & Hs & Hle & _ & Hsum).
  exists s. repeat split; assumption.
Defined.

Lemma total_bugs_is_sum_of_lengths_witness :
  exists s : Summary,
    stats (Some {| tr_id := 1; tr_url := "https://example.com";
                   tr_status := "completed"; tr_summary := None;
                   tr_results :=
                     [ {| persona := "priya"; status := "completed";
                          bugs_found :=
                            [ {| title := "Broken link"; severity := "low";
                                 description := "404"; impact := None;
                                 recommendation := None; found_by := None |} ];
                          quality_score := 9; summary := "" |} ] |}) = Some s
    /\ total_bugs s = 1%Z.
Proof.
  destruct (total_bugs_is_sum_of_lengths
              {| tr_id := 1; tr_url := "https://example.com";
                 tr_status := "completed"; tr_summary := None;
                 tr_results :=
                   [ {| persona := "priya"; status := "completed";
                        bugs_found :=
                          [ {| title := "Broken link"; severity := "low";
                               description := "404"; impact := None;
                               recommendation := None; found_by := None |} ];
                        quality_score := 9; summary := "" |} ] |} eq_refl)
    as (s & Hs & Htot).
  exists s. split; [exact Hs | exact Htot].
Defined.

(** ** The WebSocket feed *)

(** C5.  A frame of type [keepalive], [pong] or [connected] leaves the whole
    state as it is and starts nothing; the feed grows only by frames of
    another type, each appended at its end. *)
Theorem control_frames_are_dropped
    (id : Z) (update : Update) (reply : option TestResults) (d : Dashboard) :
  (u_type update = "keepalive" \/ u_type update = "pong"
   \/ u_type update = "connected" ->
   onmessage id update reply d = (d, []))
  /\ (updates (fst (onmessage id update reply d)) <> updates d ->
      u_type update <> "keepalive" /\ u_type update <> "pong"
      /\ u_type update <> "connected")
  /\ (u_type update <> "keepalive" -> u_type update <> "pong" ->
      u_type update <> "connected" ->
      updates (fst (onmessage id update reply d)) = updates d ++ [update]).
Proof.
  assert (Hdrop : u_type update = "keepalive" \/ u_type update = "pong"
                  \/ u_type update = "connected" ->
                  onmessage id update reply d = (d, [])).
  { intros H. unfold onmessage.
    replace (JS.includes ["keepalive"; "pong"; "connected"] (u_type update))
      with true; [reflexivity |].
    symmetry. apply includes_In. simpl. intuition. }
  split; [exact Hdrop | split].
  - intros Hneq. repeat split; intros Heq; apply Hneq;
      rewrite Hdrop; auto.
  - intros H1 H2 H3. unfold onmessage.
    replace (JS.includes ["keepalive"; "pong"; "connected"] (u_type update))
      with false.
    + destruct (u_type update =? "test_completed"),
               (u_type update =? "test_cancelling"), reply; reflexivity.
    + symmetry. apply includes_not_In. simpl. intuition.
Qed.

(** Over a whole stream, the feed grows by exactly the frames that are not
    control frames, in the order of their arrival. *)
Lemma feed_after_stream (id : Z) (frames : list (Update * option TestResults))
    (d : Dashboard) :
  updates (receive id frames d)
  = updates d ++ filter (fun u => negb (control u)) (map fst frames).
Proof.
  unfold receive. revert d.
  induction frames as [| [u reply] frames IH]; intros d; simpl.
  - now rewrite app_nil_r.
  - rewrite IH. unfold onmessage, control.
    destruct (JS.includes ["keepalive"; "pong"; "connected"] (u_type u)); simpl.
    + reflexivity.
    + destruct (u_type u =? "test_completed"),
               (u_type u =? "test_cancelling"), reply; simpl;
        now rewrite <- app_assoc.
Qed.

Lemma control_frames_are_dropped_witness :
  onmessage 7
    {| u_type := "keepalive"; u_persona := None; u_thought := None;
       u_phase := None; u_bug := None; u_bugs_count := None;
       u_quality_score := None; u_message := None |} None initial
  = (initial, []).
Proof.
  apply (proj1 (control_frames_are_dropped 7
                  {| u_type := "keepalive"; u_persona := None; u_thought := None;
                     u_phase := None; u_bug := None; u_bugs_count := None;
                     u_quality_score := None; u_message := None |}
                  None initial)).
  left. reflexivity.
Defined.

(** ** Admission checks of [startTest] *)

Section Admission.

Variables (user : option string) (reply : StartReply) (fresh : option Usage).

(** The first guard: nothing at all happens. *)
Lemma startTest_silent (d : Dashboard) :
  url d = "" \/ selectedAgents d = [] ->
  startTest user reply fresh d = (d, []).
Proof.
  intros H. unfold startTest.
  replace (JS.not_string (url d) || (List.length (selectedAgents d) =? 0)%nat)
    with true; [reflexivity |].
  symmetry. apply orb_true_iff.
  destruct H as [H | H]; [left; now apply not_string_true |
                          right; now apply length_eqb_0].
Qed.

Lemma first_guard_passed (d : Dashboard) :
  url d <> "" -> selectedAgents d <> [] ->
  JS.not_string (url d) || (List.length (selectedAgents d) =? 0)%nat = false.
Proof.
  intros Hu Hs. apply orb_false_iff. split.
  - now apply not_string_false.
  - destruct (List.length (selectedAgents d) =? 0)%nat eqn:E; [| reflexivity].
    apply length_eqb_0 in E. contradiction.
Qed.

(** The second guard: only the error cell changes. *)
Lemma startTest_bad_scheme (d : Dashboard) :
  url d <> "" -> selectedAgents d <> [] ->
  JS.startsWith (url d) "http://" = false ->
  JS.startsWith (url d) "https://" = false ->
  startTest user reply fresh d
  = (setError "URL must start with http:// or https://" d, []).
Proof.
  intros Hu Hs H1 H2. unfold startTest.
  rewrite (first_guard_passed d Hu Hs), H1, H2. reflexivity.
Qed.

(** The third guard: only the error cell changes. *)
Lemma startTest_no_quota (d : Dashboard) :
  url d <> "" -> selectedAgents d <> [] ->
  JS.startsWith (url d) "http://" = true
  \/ JS.startsWith (url d) "https://" = true ->
  exhausted (usage d) = true ->
  startTest user reply fresh d
  = (setError "You've used all your free tests. Paid plans coming soon!" d, []).
Proof.
  intros Hu Hs Hp Hq. unfold startTest.
  rewrite (first_guard_passed d Hu Hs), Hq.
  destruct Hp as [-> | ->]; simpl; [reflexivity |].
  now rewrite andb_false_r.
Qed.

End Admission.

(** C3, as stated, fails: an empty URL does not start with either scheme,
    yet [startTest] returns at its first guard and no error message is
    set. *)
Lemma startTest_empty_url_counterexample :
  JS.startsWith (url initial) "http://" = false
  /\ JS.startsWith (url initial) "https://" = false
  /\ error (fst (startTest None (StartOk 1) None initial)) = ""
  /\ errorBanner (fst (startTest None (StartOk 1) None initial)) = None.
Proof. repeat split. Qed.

(** C3, amended.  [startTest] rejects invalid admission input before any
    network call.  With an empty URL or an empty selection it returns at
    once: no request, no change of any cell, no error message.  Otherwise,
    with a URL that starts with neither [http://] nor [https://], it sets
    the error message and issues no request.  In both cases the run-related
    cells are those of before. *)
Theorem startTest_rejects_invalid_input
    (user : option string) (reply : StartReply) (fresh : option Usage)
    (d : Dashboard) :
  (url d = "" \/ selectedAgents d = [] ->
   startTest user reply fresh d = (d, []))
  /\ (url d <> "" -> selectedAgents d <> [] ->
      JS.startsWith (url d) "http://" = false ->
      JS.startsWith (url d) "https://" = false ->
      let (d', out) := startTest user reply fresh d in
      out = []
      /\ error d' = "URL must start with http:// or https://"
      /\ errorBanner d' = Some "URL must start with http:// or https://"
      /\ run_state d' = run_state d
      /\ d' = setError "URL must start with http:// or https://" d).
Proof.
  split.
  - apply startTest_silent.
  - intros Hu Hs H1 H2.
    rewrite (startTest_bad_scheme user reply fresh d Hu Hs H1 H2).
    repeat split.
Qed.

Lemma startTest_rejects_invalid_input_witness :
  let d := setUrl "example.com" initial in
  url d <> "" /\ selectedAgents d <> []
  /\ JS.startsWith (url d) "http://" = false
  /\ JS.startsWith (url d) "https://" = false
  /\ snd (startTest (Some "u1") (StartOk 1) None d) = []
  /\ error (fst (startTest (Some "u1") (StartOk 1) None d))
     = "URL must start with http:// or https://".
Proof.
  assert (Hu : url (setUrl "example.com" initial) <> "") by discriminate.
  assert (Hs : selectedAgents (setUrl "example.com" initial) <> [])
    by discriminate.
  pose proof (proj2 (startTest_rejects_invalid_input (Some "u1") (StartOk 1) None
                       (setUrl "example.com" initial))
                Hu Hs eq_refl eq_refl) as H.
  cbv zeta. repeat split; try assumption.
Defined.

(** C4, as stated, fails: with no test left and an empty URL, [startTest]
    returns at its first guard and no error message is set. *)
Lemma startTest_quota_silent_counterexample :
  let d := setUsage (Some {| tests_used := 3; tests_limit := 3;
                             tests_remaining := 0; beta_active := true;
                             beta_ends := "2024-12-13" |}) initial in
  exhausted (usage d) = true
  /\ error (fst (startTest None (StartOk 1) None d)) = ""
  /\ errorBanner (fst (startTest None (StartOk 1) None d)) = None.
Proof. repeat split. Qed.

(** C4, amended.  Whenever the displayed usage record has
    [tests_remaining <= 0], [startTest] denies the start: it sends no
    request, it leaves the usage record and the run-related cells alone, and
    the Start Test button is disabled.  Provided the URL is non-empty and at
    least one agent is selected, it also sets an error message and changes
    nothing else: the quota message when the URL starts with [http://] or
    [https://], the URL message otherwise.  With an empty URL or an empty
    selection the state is left as it is. *)
Theorem startTest_denied_without_quota
    (user : option string) (reply : StartReply) (fresh : option Usage)
    (d : Dashboard) (u : Usage) :
  usage d = Some u ->
  (tests_remaining u <= 0)%Z ->
  let (d', out) := startTest user reply fresh d in
  out = []
  /\ usage d' = usage d
  /\ run_state d' = run_state d
  /\ startDisabled d = true
  /\ (url d <> "" -> selectedAgents d <> [] ->
      error d' <> ""
      /\ (JS.startsWith (url d) "http://" = true
          \/ JS.startsWith (url d) "https://" = true ->
          error d' = "You've used all your free tests. Paid plans coming soon!"
          /\ d' = setError
                    "You've used all your free tests. Paid plans coming soon!" d)
      /\ (JS.startsWith (url d) "http://" = false ->
          JS.startsWith (url d) "https://" = false ->
          error d' = "URL must start with http:// or https://"
          /\ d' = setError "URL must start with http:// or https://" d))
  /\ (url d = "" \/ selectedAgents d = [] -> d' = d).
Proof.
  intros Hu Hrem.
  assert (Hq : exhausted (usage d) = true).
  { rewrite Hu. simpl. now apply Z.leb_le. }
  assert (Hdis : startDisabled d = true).
  { unfold startDisabled. rewrite Hq. apply orb_true_r. }
  destruct (string_dec (url d) "") as [He | Hne].
  { rewrite startTest_silent by now left.
    repeat split; try assumption; contradiction. }
  destruct (list_eq_dec string_dec (selectedAgents d) []) as [Hs | Hs].
  { rewrite startTest_silent by now right.
    repeat split; try assumption; contradiction. }
  assert (Hno : url d = "" \/ selectedAgents d = [] -> False) by tauto.
  destruct (JS.startsWith (url d) "http://") eqn:H1.
  { rewrite startTest_no_quota by auto.
    split; [reflexivity |]. split; [reflexivity |]. split; [reflexivity |].
    split; [assumption |]. split; [| intros E; now elim Hno].
    intros _ _. split; [discriminate |].
    split; [intros _; split; reflexivity | discriminate]. }
  destruct (JS.startsWith (url d) "https://") eqn:H2.
  { rewrite startTest_no_quota by auto.
    split; [reflexivity |]. split; [reflexivity |]. split; [reflexivity |].
    split; [assumption |]. split; [| intros E; now elim Hno].
    intros _ _. split; [discriminate |].
    split; [intros _; split; reflexivity | discriminate]. }
  rewrite startTest_bad_scheme by auto.
  split; [reflexivity |]. split; [reflexivity |]. split; [reflexivity |].
  split; [assumption |]. split; [| intros E; now elim Hno].
  intros _ _. split; [discriminate |].
  split; [intros [E | E]; discriminate | intros _ _; split; reflexivity].
Qed.

Lemma startTest_denied_without_quota_witness :
  let u := {| tests_used := 3; tests_limit := 3; tests_remaining := 0;
              beta_active := true; beta_ends := "2024-12-13" |} in
  let d := setUsage (Some u) (setUrl "https://example.com" initial) in
  let e := setUsage (Some u) (setUrl "example.com" initial) in
  usage d = Some u /\ (tests_remaining u <= 0)%Z
  /\ snd (startTest (Some "u1") (StartOk 1) None d) = []
  /\ error (fst (startTest (Some "u1") (StartOk 1) None d))
     = "You've used all your free tests. Paid plans coming soon!"
  /\ usage e = Some u
  /\ snd (startTest (Some "u1") (StartOk 1) None e) = []
  /\ error (fst (startTest (Some "u1") (StartOk 1) None e))
     = "URL must start with http:// or https://".
Proof.
  pose (u := {| tests_used := 3; tests_limit := 3; tests_remaining := 0;
                beta_active := true; beta_ends := "2024-12-13" |}).
  pose (d := setUsage (Some u) (setUrl "https://example.com" initial)).
  pose (e := setUsage (Some u) (setUrl "example.com" initial)).
  assert (Hrem : (tests_remaining u <= 0)%Z) by (simpl; lia).
  pose proof (startTest_denied_without_quota (Some "u1") (StartOk 1) None d u
                eq_refl Hrem) as Hd.
  pose proof (startTest_denied_without_quota (Some "u1") (StartOk 1) None e u
                eq_refl Hrem) as He.
  cbv zeta. repeat split; try assumption.
Defined.

(** ** The fallback aggregate: average score *)

Section Average.

Local Open Scope Q_scope.

Lemma reduce_scores (rs : list AgentResult) (acc : Q) :
  JS.reduce (fun a r => a + JS.or_Q (quality_score r) 0) acc rs
  == acc + fold_right Qplus 0 (map quality_score rs).
Proof.
  unfold JS.reduce. revert acc.
  induction rs as [| r rs IH]; simpl; intros acc; [ring |].
  rewrite IH, or_Q_0. ring.
Qed.

Lemma avg_score_fallback (rs : list AgentResult) :
  rs <> [] ->
  avg_score (fallback rs)
  = inject_Z
      (JS.Math_round
         (JS.reduce (fun a r => a + JS.or_Q (quality_score r) 0) 0 rs
          / inject_Z (Z.of_nat (List.length rs)) * 10)) / 10.
Proof.
  intros Hne. simpl. destruct rs; [contradiction | reflexivity].
Qed.

End Average.

(** ** Stopped runs *)

Section Cancelled.

(** The aggregate does not look at the status of the snapshot. *)
Lemma stats_ignores_status (s : string) (t : TestResults) :
  stats (Some (with_status s t)) = stats (Some t).
Proof. reflexivity. Qed.

Lemma sortedBugs_ignores_status (s : string) (t : TestResults) :
  sortedBugs (Some (with_status s t)) = sortedBugs (Some t).
Proof. reflexivity. Qed.

(** Once a snapshot is stored, the results section is rendered. *)
Lemma resultsSection_present (d : Dashboard) (t : TestResults) :
  results d = Some t -> exists p, resultsSection d = Some p.
Proof.
  intros H. unfold resultsSection. rewrite H. simpl.
  destruct (tr_summary t); eexists; reflexivity.
Qed.

End Cancelled.

(** ** Sorting with a comparator that subtracts keys

    [ok] delimits the elements on which the comparator is the difference of
    two integer keys; on such elements it is consistent, and the sort is the
    stable sort by key. *)

Section SortByKey.

Context {A : Type}.
Variable comparefn : A -> A -> JS.number.
Variable key : A -> Z.
Variable ok : A -> Prop.
Hypothesis comparefn_key :
  forall x y, ok x -> ok y -> JS.SortCompare comparefn x y = (key x - key y)%Z.


Lemma insert_Permutation (x : A) (l : list A) :
  Permutation (JS.insert comparefn x l) (x :: l).
Proof.
  induction l as [| y t IH]; simpl; [reflexivity |].
  destruct (JS.SortCompare comparefn x y <=? 0)%Z; [reflexivity |].
  rewrite IH. apply perm_swap.
Qed.

Lemma sort_Permutation (l : list A) : Permutation (JS.sort comparefn l) l.
Proof.
  unfold JS.sort. induction l as [| x l IH]; simpl; [reflexivity |].
  rewrite insert_Permutation. now constructor.
Qed.

Lemma sort_ok (l : list A) : Forall ok l -> Forall ok (JS.sort comparefn l).
Proof.
  intros H. rewrite Forall_forall in *. intros x Hx. apply H.
  now apply (Permutation_in _ (sort_Permutation l)).
Qed.

Lemma insert_sorted (x : A) (l : list A) :
  ok x -> Forall ok l ->
  StronglySorted (key_le key) l -> StronglySorted (key_le key) (JS.insert comparefn x l).
Proof.
  intros Hx Hl Hs. induction Hs as [| y t Hs IH Hy]; simpl.
  - repeat constructor.
  - inversion Hl as [| ? ? Hoky Hokt]; subst.
    rewrite (comparefn_key _ _ Hx Hoky).
    destruct (Z.leb_spec (key x - key y) 0) as [Hle | Hgt].
    + constructor; [now constructor |].
      constructor; [unfold key_le; lia |].
      eapply Forall_impl; [| exact Hy]. unfold key_le. intros a Ha. lia.
    + constructor; [now apply IH |].
      apply (Permutation_Forall (Permutation_sym (insert_Permutation x t))).
      constructor; [unfold key_le; lia | assumption].
Qed.

Lemma sort_sorted (l : list A) :
  Forall ok l -> StronglySorted (key_le key) (JS.sort comparefn l).
Proof.
  unfold JS.sort. induction 1 as [| x l Hx Hl IH]; simpl; [constructor |].
  apply insert_sorted; [assumption | now apply sort_ok | assumption].
Qed.

(** Stability: the elements of one key keep their relative order. *)
Lemma insert_stable (k : Z) (x : A) (l : list A) :
  ok x -> Forall ok l ->
  filter (keyed key k) (JS.insert comparefn x l) = filter (keyed key k) (x :: l).
Proof.
  intros Hx Hl. induction Hl as [| y t Hy Ht IH]; [reflexivity |].
  cbn [JS.insert]. rewrite (comparefn_key _ _ Hx Hy).
  destruct (Z.leb_spec (key x - key y) 0) as [Hle | Hgt]; [reflexivity |].
  cbn [filter] in *. rewrite IH. unfold keyed.
  destruct (Z.eqb_spec (key x) k), (Z.eqb_spec (key y) k);
    try reflexivity; lia.
Qed.

Lemma sort_stable (k : Z) (l : list A) :
  Forall ok l ->
  filter (keyed key k) (JS.sort comparefn l) = filter (keyed key k) l.
Proof.
  unfold JS.sort. induction 1 as [| x l Hx Hl IH]; [reflexivity |].
  cbn [fold_right]. rewrite insert_stable; [| assumption | now apply sort_ok].
  cbn [filter]. now rewrite IH.
Qed.

(** A sorted list is determined by its classes of equal key: whatever
    stable algorithm the engine runs, it returns the list computed here. *)
Lemma sorted_stable_unique (l1 l2 : list A) :
  StronglySorted (key_le key) l1 -> StronglySorted (key_le key) l2 ->
  (forall k, filter (keyed key k) l1 = filter (keyed key k) l2) ->
  l1 = l2.
Proof.
  intros H1. revert l2.
  induction H1 as [| a t1 Hs1 IH Ha]; intros l2 H2 Hcls.
  - destruct l2 as [| b t2]; [reflexivity |].
    specialize (Hcls (key b)). cbn in Hcls. unfold keyed in Hcls.
    rewrite Z.eqb_refl in Hcls. discriminate.
  - destruct H2 as [| b t2 Hs2 Hb].
    + specialize (Hcls (key a)). cbn in Hcls. unfold keyed in Hcls.
      rewrite Z.eqb_refl in Hcls. discriminate.
    + assert (Hin_a : In a (b :: t2)).
      { apply (proj1 (filter_In (keyed key (key a)) a (b :: t2))).
        rewrite <- Hcls. cbn. unfold keyed. rewrite Z.eqb_refl. now left. }
      assert (Hin_b : In b (a :: t1)).
      { apply (proj1 (filter_In (keyed key (key b)) b (a :: t1))).
        rewrite Hcls. cbn. unfold keyed. rewrite Z.eqb_refl. now left. }
      assert (Hkey : key a = key b).
      { rewrite Forall_forall in Ha, Hb. unfold key_le in Ha, Hb.
        destruct Hin_a as [-> | Hin_a]; [reflexivity |].
        destruct Hin_b as [-> | Hin_b]; [reflexivity |].
        specialize (Ha _ Hin_b). specialize (Hb _ Hin_a). lia. }
      assert (Hab : a = b).
      { specialize (Hcls (key a)). cbn in Hcls. unfold keyed in Hcls.
        rewrite <- Hkey, Z.eqb_refl in Hcls. congruence. }
      subst b. f_equal. apply IH; [assumption |].
      intros k. specialize (Hcls k). cbn in Hcls.
      destruct (keyed key k a); congruence.
Qed.

(** In a sorted list, what comes first has the smaller key. *)
Lemma sorted_before (a b : A) (l : list A) :
  StronglySorted (key_le key) l -> before a b l -> (key a <= key b)%Z.
Proof.
  intros Hs (l1 & l2 & l3 & ->).
  induction l1 as [| c l1 IH]; simpl in Hs.
  - inversion Hs as [| ? ? _ Hall]; subst.
    rewrite Forall_forall in Hall. apply Hall.
    rewrite in_app_iff. right. now left.
  - inversion Hs; subst. now apply IH.
Qed.

End SortByKey.

(** ** The [All Issues] tab *)

Section Severity.

(** What [order[sev] ?? 4] evaluates to.  The four own keys give their
    number and an unknown string gives [4], but a string that names a
    property of [Object.prototype] gives that inherited property. *)
Lemma order_rank (sev : string) :
  inherited sev = false ->
  JS.nullish (JS.get order sev) 4 = JS.VNum (rank sev).
Proof.
  unfold inherited, JS.get, rank, order. cbn [JS.own]. intros Hin.
  rewrite !(String.eqb_sym _ sev).
  destruct (sev =? "critical"); [reflexivity |].
  destruct (sev =? "high"); [reflexivity |].
  destruct (sev =? "medium"); [reflexivity |].
  destruct (sev =? "low"); [reflexivity |].
  rewrite Hin. reflexivity.
Qed.

Lemma order_inherited (sev : string) :
  inherited sev = true ->
  JS.nullish (JS.get order sev) 4 = JS.VInherited.
Proof.
  unfold inherited. intros Hin.
  assert (H := proj1 (includes_In _ _) Hin). simpl in H.
  repeat (destruct H as [<- | H]; [reflexivity |]). contradiction.
Qed.

Lemma bySeverity_rank (a b : Issue) :
  inherited (severity (bug a)) = false ->
  inherited (severity (bug b)) = false ->
  JS.SortCompare bySeverity a b = (issue_rank a - issue_rank b)%Z.
Proof.
  intros Ha Hb. unfold JS.SortCompare, bySeverity.
  now rewrite (order_rank _ Ha), (order_rank _ Hb).
Qed.

(** With an inherited key on either side the comparator returns [NaN],
    which the sort reads as a tie. *)
Lemma bySeverity_NaN (a b : Issue) :
  inherited (severity (bug a)) = true \/ inherited (severity (bug b)) = true ->
  bySeverity a b = JS.NaN.
Proof.
  unfold bySeverity. intros [H | H]; rewrite (order_inherited _ H).
  - reflexivity.
  - destruct (JS.nullish (JS.get order (severity (bug a))) 4); reflexivity.
Qed.


(** For snapshots in which no severity string names an inherited property,
    [sortedBugs] is the stable sort of [allBugs] by rank: a permutation, in
    which no row comes before a row of a more severe class, and in which the
    rows of one rank (hence those of one severity string) stand in the order
    of [allBugs]; it is the only list that is sorted by rank and keeps every
    class of equal rank as it is in [allBugs]. *)
Lemma sortedBugs_without_inherited (res : option TestResults) :
  (forall i, In i (allBugs res) -> inherited (severity (bug i)) = false) ->
  Permutation (sortedBugs res) (allBugs res)
  /\ StronglySorted (key_le issue_rank) (sortedBugs res)
  /\ (forall a b, before a b (sortedBugs res) ->
                  (issue_rank a <= issue_rank b)%Z)
  /\ (forall sev,
        filter (fun i => severity (bug i) =? sev) (sortedBugs res)
        = filter (fun i => severity (bug i) =? sev) (allBugs res))
  /\ (forall k,
        filter (keyed issue_rank k) (sortedBugs res)
        = filter (keyed issue_rank k) (allBugs res))
  /\ (forall l : list Issue,
        StronglySorted (key_le issue_rank) l ->
        (forall k, filter (keyed issue_rank k) l
                   = filter (keyed issue_rank k) (allBugs res)) ->
        l = sortedBugs res).
Proof.
  intros Hno.
  set (ok := fun i : Issue => inherited (severity (bug i)) = false).
  assert (Hcmp : forall x y, ok x -> ok y ->
                   JS.SortCompare bySeverity x y
                   = (issue_rank x - issue_rank y)%Z)
    by (intros; now apply bySeverity_rank).
  assert (Hok : Forall ok (allBugs res)) by now apply Forall_forall.
  pose proof (sort_sorted bySeverity issue_rank ok Hcmp _ Hok) as Hsorted.
  unfold sortedBugs.
  split; [apply sort_Permutation |].
  split; [exact Hsorted |].
  split; [intros a b; now apply sorted_before |].
  pose proof (sort_stable bySeverity issue_rank ok Hcmp) as Hstable.
  split; [| split;
            [intros k; now apply Hstable
            | intros l Hl Hcls; apply (sorted_stable_unique issue_rank);
              [assumption | assumption
              | intros k; rewrite Hcls; symmetry; now apply Hstable]]].
  intros sev.
  assert (Hfil : forall l : list Issue,
             filter (fun i => severity (bug i) =? sev) l
             = filter (fun i => severity (bug i) =? sev)
                 (filter (keyed issue_rank (rank sev)) l)).
  { intros l. induction l as [| i l IH]; [reflexivity |].
    cbn [filter]. destruct (severity (bug i) =? sev) eqn:E.
    - assert (Hk : keyed issue_rank (rank sev) i = true).
      { unfold keyed, issue_rank.
        rewrite (proj1 (String.eqb_eq _ _) E). apply Z.eqb_refl. }
      rewrite Hk. cbn [filter]. rewrite E. now f_equal.
    - destruct (keyed issue_rank (rank sev) i); [| exact IH].
      cbn [filter]. now rewrite E. }
  rewrite Hfil, (sort_stable bySeverity issue_rank ok Hcmp _ _ Hok).
  symmetry. apply Hfil.
Qed.

End Severity.

(** C1 fails on the snapshot [shadowed].  [order] is an object literal, so
    [order["constructor"]] is the inherited constructor, not [undefined]:
    [??] keeps it, the subtraction yields [NaN], and the sort reads every
    comparison with that row as a tie.  The three rows stay where they are
    and the low bug is listed before the critical one. *)
Theorem sortedBugs_inherited_severity :
  map (fun i => severity (bug i)) (allBugs (Some shadowed))
  = ["low"; "constructor"; "critical"]
  /\ map (fun i => severity (bug i)) (sortedBugs (Some shadowed))
     = ["low"; "constructor"; "critical"]
  /\ before {| bug := report "low"; agent := "priya" |}
            {| bug := report "critical"; agent := "priya" |}
            (sortedBugs (Some shadowed))
  /\ (issue_rank {| bug := report "critical"; agent := "priya" |}
      < issue_rank {| bug := report "low"; agent := "priya" |})%Z
  /\ bySeverity {| bug := report "low"; agent := "priya" |}
                {| bug := report "constructor"; agent := "priya" |} = JS.NaN
  /\ bySeverity {| bug := report "constructor"; agent := "priya" |}
                {| bug := report "critical"; agent := "priya" |} = JS.NaN.
Proof.
  split; [reflexivity |]. split; [reflexivity |].
  split; [| repeat split].
  exists [], [{| bug := report "constructor"; agent := "priya" |}], [].
  reflexivity.
Qed.

(** ** Theme *)

(** Toggling the theme twice brings back the original [dark] value; after
    each toggle the class on the document and the stored item both say what
    the [dark] cell says. *)
Theorem themeToggle_twice (t : Theme) :
  dark (themeToggle (themeToggle t)) = dark t
  /\ dark_class (browser (themeToggle t)) = dark (themeToggle t)
  /\ theme_item (browser (themeToggle t))
     = Some (if dark (themeToggle t) then "dark" else "light")
  /\ browser (themeToggle (themeToggle t))
     = {| theme_item := Some (if dark t then "dark" else "light");
          dark_class := dark t |}.
Proof.
  unfold themeToggle. simpl. rewrite negb_involutive. repeat split.
Qed.

(** The choice made with the toggle survives a reload: a [ThemeToggle]
    created afresh on the browser the toggle left behind mounts with the
    same [dark] value and the same class, and leaves the stored item alone. *)
Theorem theme_survives_reload (t : Theme) :
  let reloaded := themeMount (themeCreated (browser (themeToggle t))) in
  dark reloaded = dark (themeToggle t)
  /\ browser reloaded = browser (themeToggle t).
Proof.
  unfold themeMount, themeCreated, themeToggle. simpl.
  destruct (dark t); simpl; split; reflexivity.
Qed.

(** On every content of [localStorage], the landing page and the toggle of
    the dashboard put the page in the same theme, dark unless a non-empty
    item other than [dark] is stored, and neither writes the item. *)
Theorem landing_and_dashboard_agree (b : Browser) :
  landingMount b = browser (themeMount (themeCreated b))
  /\ (dark_class (landingMount b) = false
      <-> exists v, theme_item b = Some v /\ v <> "" /\ v <> "dark").
Proof.
  unfold landingMount, themeMount, themeCreated, storedDark, JS.or_string.
  simpl. destruct (theme_item b) as [v |]; simpl.
  - unfold JS.not_string. destruct (String.eqb_spec v "") as [-> | Hne]; simpl.
    + split; [reflexivity |]. split; [discriminate |].
      intros (v & Hv & Hne & _). injection Hv as <-. now elim Hne.
    + split; [reflexivity |]. split.
      * intros H. exists v. repeat split; try assumption.
        now apply String.eqb_neq.
      * intros (w & Hw & _ & Hd). injection Hw as <-.
        now apply String.eqb_neq.
  - split; [reflexivity |]. split; [discriminate |].
    intros (v & Hv & _). discriminate.
Qed.

(** ** Badges and agent cards *)

Lemma findAgent_unknown (p : string) : ~ In p catalog -> findAgent p = None.
Proof.
  unfold catalog, findAgent, AGENTS. cbn [map find a_id In]. intros H.
  repeat match goal with
         | |- context [?k =? p] =>
             destruct (String.eqb_spec k p) as [E | _];
             [elim H; rewrite <- E; tauto |]
         end.
  reflexivity.
Qed.

(** A severity badge always prints the severity string itself.  Its style
    is [badge-] followed by the severity for the four enumerated severities,
    and the style of [low] for any other string that is not the name of a
    property of [Object.prototype]. *)
Theorem SeverityBadge_style (sev : string) :
  badge_label (SeverityBadge sev) = sev
  /\ (In sev ["critical"; "high"; "medium"; "low"] ->
      badge_style (SeverityBadge sev) = Style ("badge-" ++ sev)%string)
  /\ (~ In sev ["critical"; "high"; "medium"; "low"] ->
      inherited sev = false ->
      badge_style (SeverityBadge sev) = Style "badge-low").
Proof.
  split; [reflexivity |]. split.
  - simpl. intros [<- | [<- | [<- | [<- | []]]]]; reflexivity.
  - intros Hout Hin. unfold SeverityBadge, inherited, cls in *.
    cbn [own_string badge_style].
    repeat match goal with
           | |- context [?k =? sev] =>
               destruct (String.eqb_spec k sev) as [E | _];
               [elim Hout; rewrite <- E; simpl; tauto |]
           end.
    now rewrite Hin.
Qed.

Lemma SeverityBadge_style_witness :
  In "high" ["critical"; "high"; "medium"; "low"]
  /\ badge_style (SeverityBadge "high") = Style "badge-high"
  /\ ~ In "info" ["critical"; "high"; "medium"; "low"]
  /\ inherited "info" = false
  /\ badge_style (SeverityBadge "info") = Style "badge-low".
Proof.
  assert (Hin : In "high" ["critical"; "high"; "medium"; "low"])
    by (simpl; tauto).
  assert (Hout : ~ In "info" ["critical"; "high"; "medium"; "low"])
    by (simpl; intuition discriminate).
  split; [exact Hin |].
  split; [exact (proj1 (proj2 (SeverityBadge_style "high")) Hin) |].
  split; [exact Hout |]. split; [reflexivity |].
  exact (proj2 (proj2 (SeverityBadge_style "info")) Hout eq_refl).
Defined.

(** A result whose persona is the id of a catalog agent is shown under that
    agent's name, colour, role and initial; a result with any other persona
    is shown under the raw persona string and its first character, in grey
    and without a role. *)
Theorem agentCard_lookup (r : AgentResult) :
  (forall a : Agent,
      In a AGENTS -> persona r = a_id a ->
      card_name (agentCard r) = name a
      /\ avatar_color (agentCard r) = color a
      /\ card_role (agentCard r) = Some (role a)
      /\ avatar_letter (agentCard r) = String.get 0 (name a))
  /\ (~ In (persona r) catalog ->
      card_name (agentCard r) = persona r
      /\ avatar_color (agentCard r) = "bg-gray-500"
      /\ card_role (agentCard r) = None
      /\ avatar_letter (agentCard r) = String.get 0 (persona r)).
Proof.
  split.
  - intros a Ha Hp. unfold agentCard. rewrite Hp. simpl in Ha.
    repeat (destruct Ha as [<- | Ha]; [repeat split |]). contradiction.
  - intros Hout. unfold agentCard. rewrite (findAgent_unknown _ Hout).
    repeat split.
Qed.

Lemma agentCard_lookup_witness :
  let r := {| persona := "security"; status := "completed"; bugs_found := [];
              quality_score := 10; summary := "" |} in
  ~ In (persona r) catalog
  /\ card_name (agentCard r) = "security"
  /\ avatar_color (agentCard r) = "bg-gray-500".
Proof.
  cbv zeta.
  assert (Hout : ~ In (persona {| persona := "security"; status := "completed";
                                  bugs_found := []; quality_score := 10;
                                  summary := "" |}) catalog)
    by (simpl; intuition discriminate).
  destruct (proj2 (agentCard_lookup _) Hout) as (Hn & Hc & _).
  split; [exact Hout |]. split; [exact Hn | exact Hc].
Defined.

(** ** Panels, cards and rows *)

Lemma allBugs_length (t : TestResults) :
  List.length (allBugs (Some t)) = List.length (bugs_of (tr_results t)).
Proof.
  unfold allBugs, bugs_of, JS.flatMap.
  induction (tr_results t) as [| r rs IH]; simpl; [reflexivity |].
  now rewrite !length_app, length_map, IH.
Qed.

Lemma allBugs_In (t : TestResults) (i : Issue) :
  In i (allBugs (Some t))
  <-> exists r, In r (tr_results t) /\ In (bug i) (bugs_found r)
                /\ agent i = persona r.
Proof.
  unfold allBugs, JS.flatMap. rewrite in_flat_map. split.
  - intros (r & Hr & Hi). apply in_map_iff in Hi.
    destruct Hi as (b & <- & Hb). exists r. simpl. auto.
  - intros (r & Hr & Hb & Ha). exists r. split; [assumption |].
    apply in_map_iff. exists (bug i). split; [| assumption].
    destruct i as [b a]. simpl in *. now subst.
Qed.

(** Sorting loses and invents nothing, whatever the severity strings: the
    rows of the [All Issues] tab are the bugs of the per-agent results, each
    with the persona of the result it comes from, and there are as many rows
    as bugs. *)
Theorem sortedBugs_rows (t : TestResults) :
  Permutation (sortedBugs (Some t)) (allBugs (Some t))
  /\ List.length (sortedBugs (Some t)) = List.length (bugs_of (tr_results t))
  /\ forall i : Issue,
       In i (sortedBugs (Some t))
       <-> exists r, In r (tr_results t) /\ In (bug i) (bugs_found r)
                     /\ agent i = persona r.
Proof.
  pose proof (sort_Permutation bySeverity (allBugs (Some t))) as Hperm.
  fold (sortedBugs (Some t)) in Hperm.
  split; [exact Hperm |]. split.
  - rewrite (Permutation_length Hperm). apply allBugs_length.
  - intros i. rewrite <- allBugs_In. split; apply Permutation_in;
      [exact Hperm | now apply Permutation_sym].
Qed.

(** When the snapshot brings no summary, the counter on the [All Issues]
    tab and the [Total Issues] card both show the number of rows of that
    tab. *)
Theorem tab_counter_counts_rows (d : Dashboard) (t : TestResults) :
  results d = Some t ->
  tr_summary t = None ->
  exists p : ResultsSection,
    resultsSection d = Some p
    /\ tab_counter p = Z.of_nat (List.length (sortedBugs (results d)))
    /\ card_total p = Z.of_nat (List.length (sortedBugs (results d))).
Proof.
  intros Hres Hsum. unfold resultsSection. rewrite Hres. unfold stats.
  rewrite Hsum. eexists. split; [reflexivity |].
  cbn [tab_counter card_total].
  rewrite fallback_total, Zsum_lengths.
  pose proof (sort_Permutation bySeverity (allBugs (Some t))) as Hperm.
  unfold sortedBugs. rewrite (Permutation_length Hperm), allBugs_length.
  split; reflexivity.
Qed.

Lemma tab_counter_counts_rows_witness :
  results (setResults (Some shadowed) initial) = Some shadowed
  /\ tr_summary shadowed = None
  /\ exists p : ResultsSection,
       resultsSection (setResults (Some shadowed) initial) = Some p
       /\ tab_counter p = 3%Z.
Proof.
  split; [reflexivity |]. split; [reflexivity |].
  destruct (tab_counter_counts_rows (setResults (Some shadowed) initial)
              shadowed eq_refl eq_refl) as (p & Hp & Hc & _).
  exists p. split; [exact Hp | exact Hc].
Defined.

Lemma scores_sum_bounds (rs : list AgentResult) :
  (forall r, In r rs -> 0 <= quality_score r /\ quality_score r <= 10)%Q ->
  (0 <= fold_right Qplus 0 (map quality_score rs)
   /\ fold_right Qplus 0 (map quality_score rs)
      <= 10 * inject_Z (Z.of_nat (List.length rs)))%Q.
Proof.
  induction rs as [| r rs IH]; intros H.
  - simpl. split; [apply Qle_refl | vm_compute; discriminate].
  - destruct (H r (or_introl eq_refl)) as [Hlo Hhi].
    destruct IH as [IHlo IHhi]; [intros x Hx; apply H; now right |].
    cbn [map fold_right List.length].
    rewrite Nat2Z.inj_succ, <- Z.add_1_r, inject_Z_plus.
    change (inject_Z 1) with 1%Q. split; lra.
Qed.

(** When every agent's score lies between 0 and 10, so does the average
    the page computes, whatever the number of agents (none included). *)
Theorem avg_score_in_range (rs : list AgentResult) :
  (forall r, In r rs -> 0 <= quality_score r /\ quality_score r <= 10)%Q ->
  (0 <= avg_score (fallback rs) /\ avg_score (fallback rs) <= 10)%Q.
Proof.
  intros H. destruct rs as [| r0 rs0] eqn:Hrs.
  { simpl. split; [apply Qle_refl | vm_compute; discriminate]. }
  rewrite <- Hrs in *.
  assert (Hne : rs <> []) by (rewrite Hrs; discriminate).
  rewrite (avg_score_fallback rs Hne).
  destruct (scores_sum_bounds rs H) as [Hlo Hhi].
  pose proof (reduce_scores rs 0) as Hsum. rewrite Qplus_0_l in Hsum.
  assert (Hn : (0 < inject_Z (Z.of_nat (List.length rs)))%Q).
  { rewrite Hrs. cbn [List.length]. rewrite Nat2Z.inj_succ.
    change 0%Q with (inject_Z 0). rewrite <- Zlt_Qlt. lia. }
  set (n := inject_Z (Z.of_nat (List.length rs))) in *.
  set (total := JS.reduce (fun a r => (a + JS.or_Q (quality_score r) 0)%Q)
                  0%Q rs) in *.
  set (sum := fold_right Qplus 0%Q (map quality_score rs)) in *.
  clearbody n total sum.
  assert (Hq : (0 <= total / n /\ total / n <= 10)%Q).
  { split.
    - apply Qle_shift_div_l; [assumption |]. lra.
    - apply Qle_shift_div_r; [assumption |]. lra. }
  destruct Hq as [Hq0 Hq10].
  set (x := (total / n * 10)%Q).
  assert (Hx : (0 <= x /\ x <= 100)%Q) by (unfold x; split; lra).
  destruct Hx as [Hx0 Hx100].
  assert (Hk : (0 <= JS.Math_round x <= 100)%Z).
  { unfold JS.Math_round. split.
    - change 0%Z with (Qfloor (1 # 2)). apply Qfloor_resp_le. lra.
    - change 100%Z with (Qfloor (100 + (1 # 2))). apply Qfloor_resp_le. lra. }
  destruct Hk as [Hk0 Hk100].
  rewrite Zle_Qle in Hk0, Hk100.
  split.
  - apply Qle_shift_div_l; [reflexivity |].
    change (inject_Z 0) with 0%Q in Hk0. lra.
  - apply Qle_shift_div_r; [reflexivity |].
    change (inject_Z 100) with 100%Q in Hk100. lra.
Qed.

Lemma avg_score_in_range_witness :
  (0 <= avg_score (fallback (tr_results shadowed))
   /\ avg_score (fallback (tr_results shadowed)) <= 10)%Q.
Proof.
  apply (avg_score_in_range (tr_results shadowed)).
  intros r [<- | []]. split; vm_compute; discriminate.
Defined.

(** ** The socket address *)

Lemma substring_whole (s : string) : substring 0 (String.length s) s = s.
Proof. induction s as [| c s IH]; simpl; [reflexivity | now rewrite IH]. Qed.

(** For every API address that starts with [http], the socket address is
    that address with its leading [http] turned into [ws] (so [http://]
    becomes [ws://] and [https://] becomes [wss://]), followed by [/ws/] and
    the run id; a later [http] in the host or the path is left as it is. *)
Theorem socketUrl_scheme (rest id : string) :
  socketUrl ("http" ++ rest)%string id = ("ws" ++ rest ++ "/ws/" ++ id)%string.
Proof.
  assert (Hidx : index 0 "http" ("http" ++ rest)%string = Some 0%nat).
  { simpl. destruct rest; reflexivity. }
  unfold socketUrl, replace. rewrite Hidx. simpl.
  rewrite ?Nat.sub_0_r, substring_whole. reflexivity.
Qed.

(** ** Starting a run *)

Section Start.

Variables (user : option string) (reply : StartReply) (fresh : option Usage).

Lemma startTest_not_admitted (d : Dashboard) :
  ~ admitted d ->
  startTest user reply fresh d = (d, [])
  \/ exists m, m <> "" /\ startTest user reply fresh d = (setError m d, []).
Proof.
  intros Hno.
  destruct (string_dec (url d) "") as [He | Hne].
  { left. apply startTest_silent. now left. }
  destruct (selectedAgents d) as [| a sel] eqn:Hsel.
  { left. apply startTest_silent. now right. }
  assert (Hs : selectedAgents d <> []) by (rewrite Hsel; discriminate).
  clear Hsel a sel.
  destruct (exhausted (usage d)) eqn:Hq.
  - right.
    destruct (JS.startsWith (url d) "http://") eqn:H1;
      [| destruct (JS.startsWith (url d) "https://") eqn:H2].
    + exists "You've used all your free tests. Paid plans coming soon!".
      split; [discriminate | apply startTest_no_quota; auto].
    + exists "You've used all your free tests. Paid plans coming soon!".
      split; [discriminate | apply startTest_no_quota; auto].
    + exists "URL must start with http:// or https://".
      split; [discriminate | apply startTest_bad_scheme; auto].
  - right. exists "URL must start with http:// or https://".
    split; [discriminate |]. apply startTest_bad_scheme; auto.
    + destruct (JS.startsWith (url d) "http://") eqn:H1; [| reflexivity].
      elim Hno. unfold admitted. auto.
    + destruct (JS.startsWith (url d) "https://") eqn:H2; [| reflexivity].
      elim Hno. unfold admitted. auto.
Qed.

Lemma admitted_dec (d : Dashboard) : admitted d \/ ~ admitted d.
Proof.
  unfold admitted.
  destruct (string_dec (url d) ""); [right; tauto |].
  destruct (selectedAgents d); [right; tauto |].
  destruct (JS.startsWith (url d) "http://"),
           (JS.startsWith (url d) "https://"), (exhausted (usage d));
    try (right; intuition discriminate);
    left; repeat split; auto; discriminate.
Qed.

Lemma guards_passed (d : Dashboard) :
  admitted d ->
  JS.not_string (url d) || (List.length (selectedAgents d) =? 0)%nat = false
  /\ negb (JS.startsWith (url d) "http://")
     && negb (JS.startsWith (url d) "https://") = false
  /\ exhausted (usage d) = false.
Proof.
  intros (Hu & Hs & Hp & Hq). split; [now apply first_guard_passed |].
  split; [| assumption].
  destruct Hp as [-> | ->]; simpl; [reflexivity | apply andb_false_r].
Qed.

End Start.

Ltac run_start Had :=
  unfold startTest;
  let G1 := fresh "G" in
  let G2 := fresh "G" in
  let G3 := fresh "G" in
  destruct (guards_passed _ Had) as (G1 & G2 & G3);
  rewrite G1, G2, G3;
  unfold seq, set, send, skip, refreshUsage; cbn [fst snd app].

Lemma startTest_requests_admitted
    (user : option string) (reply : StartReply) (fresh : option Usage)
    (d : Dashboard) :
  admitted d ->
  exists rest,
    snd (startTest user reply fresh d)
    = PostStart (url d) (selectedAgents d) (JS.or_string user "anonymous")
        :: rest
    /\ existsb is_start rest = false.
Proof.
  intros Had. run_start Had.
  destruct reply as [id | detail | message]; cbn [fst snd app];
    [destruct user as [uid |];
     [destruct (JS.not_string uid); [| destruct fresh] |] |..];
    eexists; split; reflexivity.
Qed.

(** [startTest] sends something exactly when the URL is non-empty, an agent
    is selected, the URL starts with [http://] or [https://] and the quota
    is not used up.  What it then sends first is the one start request of
    the call, carrying the URL, the selection in its current order and the
    user id, or [anonymous] when nobody is signed in. *)
Theorem startTest_sends_iff_admitted
    (user : option string) (reply : StartReply) (fresh : option Usage)
    (d : Dashboard) :
  (snd (startTest user reply fresh d) <> [] <-> admitted d)
  /\ (admitted d ->
      exists rest,
        snd (startTest user reply fresh d)
        = PostStart (url d) (selectedAgents d) (JS.or_string user "anonymous")
            :: rest
        /\ existsb is_start rest = false).
Proof.
  split; [| apply startTest_requests_admitted]. split.
  - intros Hout. destruct (admitted_dec d) as [Had | Hno]; [assumption |].
    destruct (startTest_not_admitted user reply fresh d Hno)
      as [E | (m & _ & E)]; rewrite E in Hout; now elim Hout.
  - intros Had.
    destruct (startTest_requests_admitted user reply fresh d Had)
      as (rest & -> & _).
    discriminate.
Qed.

Lemma startTest_sends_iff_admitted_witness :
  let d := setUrl "https://example.com" initial in
  admitted d
  /\ snd (startTest None (StartNotOk None) None d)
     = [PostStart "https://example.com" ["priya"] "anonymous"].
Proof.
  cbv zeta.
  assert (Had : admitted (setUrl "https://example.com" initial)).
  { unfold admitted. simpl. repeat split; try discriminate. now right. }
  split; [exact Had |].
  destruct (proj2 (startTest_sends_iff_admitted None (StartNotOk None) None _) Had)
    as (rest & E & _).
  reflexivity.
Defined.

(** The button and the handler agree: whenever the Start Test button is
    disabled, [startTest] would send nothing and leave the run-related cells
    and the usage record alone; when it is enabled, [startTest] sends
    nothing only for a URL without an [http://] or [https://] prefix. *)
Theorem startDisabled_blocks_start
    (user : option string) (reply : StartReply) (fresh : option Usage)
    (d : Dashboard) :
  (startDisabled d = true ->
   snd (startTest user reply fresh d) = []
   /\ run_state (fst (startTest user reply fresh d)) = run_state d
   /\ usage (fst (startTest user reply fresh d)) = usage d)
  /\ (startDisabled d = false ->
      (snd (startTest user reply fresh d) = []
       <-> JS.startsWith (url d) "http://" = false
           /\ JS.startsWith (url d) "https://" = false)).
Proof.
  split.
  - intros Hdis.
    assert (Hno : ~ admitted d).
    { intros (Hu & Hs & _ & Hq). unfold startDisabled in Hdis.
      apply not_string_false in Hu. rewrite Hu, Hq in Hdis.
      rewrite orb_false_r in Hdis. simpl in Hdis.
      apply length_eqb_0 in Hdis. contradiction. }
    destruct (startTest_not_admitted user reply fresh d Hno)
      as [E | (m & _ & E)]; rewrite E; repeat split.
  - intros Hen. unfold startDisabled in Hen.
    apply orb_false_iff in Hen. destruct Hen as [Hen Hq].
    apply orb_false_iff in Hen. destruct Hen as [Hu Hs].
    apply not_string_false in Hu.
    assert (Hs' : selectedAgents d <> []).
    { intros E. apply length_eqb_0 in E. congruence. }
    split.
    + intros Hout.
      destruct (JS.startsWith (url d) "http://") eqn:H1;
        [| destruct (JS.startsWith (url d) "https://") eqn:H2; [| tauto]].
      * assert (Had : admitted d) by (unfold admitted; auto).
        destruct (startTest_requests_admitted user reply fresh d Had)
          as (rest & E & _).
        rewrite E in Hout. discriminate.
      * assert (Had : admitted d) by (unfold admitted; auto).
        destruct (startTest_requests_admitted user reply fresh d Had)
          as (rest & E & _).
        rewrite E in Hout. discriminate.
    + intros [H1 H2].
      now rewrite (startTest_bad_scheme user reply fresh d Hu Hs' H1 H2).
Qed.

Lemma startDisabled_blocks_start_witness :
  startDisabled initial = true
  /\ snd (startTest (Some "u1") (StartOk 4) None initial) = []
  /\ startDisabled (setUrl "example.com" initial) = false
  /\ snd (startTest (Some "u1") (StartOk 4) None (setUrl "example.com" initial))
     = [].
Proof.
  split; [reflexivity |].
  split; [exact (proj1 (proj1 (startDisabled_blocks_start (Some "u1") (StartOk 4)
                                 None initial) eq_refl)) |].
  split; [reflexivity |].
  apply (proj2 (startDisabled_blocks_start (Some "u1") (StartOk 4) None
                  (setUrl "example.com" initial)) eq_refl).
  split; reflexivity.
Defined.

(** An accepted start that the backend answers with a run id puts the page
    in the running state with a clean slate: the feed, the previous results
    and the error message are cleared, the tab is back on the overview, the
    run id is stored, and the socket of that run is opened right after the
    start request; anything sent after that is a usage refresh.  The page
    then shows the live feed and an enabled Stop button, and no results. *)
Theorem accepted_start
    (user : option string) (fresh : option Usage) (id : Z) (d : Dashboard) :
  admitted d ->
  let d' := fst (startTest user (StartOk id) fresh d) in
  let out := snd (startTest user (StartOk id) fresh d) in
  isRunning d' = true /\ isCancelling d' = false
  /\ updates d' = [] /\ results d' = None /\ error d' = ""
  /\ activeTab d' = overview /\ testId d' = Some id
  /\ (exists more,
        out = PostStart (url d) (selectedAgents d) (JS.or_string user "anonymous")
                :: OpenWebSocket id :: more
        /\ forall r, In r more -> exists u, r = GetUsage u)
  /\ mainButton d' = StopButton false
  /\ liveFeedShown d' = true
  /\ resultsSection d' = None.
Proof.
  intros Had. cbv zeta. run_start Had.
  destruct user as [uid |];
    [destruct (JS.not_string uid); [| destruct fresh as [u |]] |]; cbn;
    repeat (split; [reflexivity |]);
    (split; [| repeat split]);
    eexists; (split; [reflexivity |]); intros r Hr;
    simpl in Hr; try contradiction;
    destruct Hr as [<- | []]; eexists; reflexivity.
Qed.

Lemma accepted_start_witness :
  let d := setUrl "https://example.com" initial in
  admitted d
  /\ testId (fst (startTest (Some "u1") (StartOk 4) None d)) = Some 4%Z
  /\ mainButton (fst (startTest (Some "u1") (StartOk 4) None d))
     = StopButton false.
Proof.
  cbv zeta.
  assert (Had : admitted (setUrl "https://example.com" initial)).
  { unfold admitted. simpl. repeat split; try discriminate. now right. }
  pose proof (accepted_start (Some "u1") None 4 _ Had) as H.
  cbv zeta in H. destruct H as (_ & _ & _ & _ & _ & _ & Hid & _ & Hb & _).
  split; [exact Had |]. split; [exact Hid | exact Hb].
Defined.

(** A start that passes the guards but is not answered with a run id (the
    backend refuses it, or the call fails) sends the start request and
    nothing else, opens no socket, keeps the stored run id and the usage
    record, and leaves the page not running.  The feed and the previous
    results have been cleared all the same.  When the backend refuses, an
    error message is always shown: its [detail], or a default text. *)
Theorem rejected_start
    (user : option string) (reply : StartReply) (fresh : option Usage)
    (d : Dashboard) :
  admitted d ->
  (forall id, reply <> StartOk id) ->
  let d' := fst (startTest user reply fresh d) in
  let out := snd (startTest user reply fresh d) in
  out = [PostStart (url d) (selectedAgents d) (JS.or_string user "anonymous")]
  /\ isRunning d' = false
  /\ testId d' = testId d /\ usage d' = usage d
  /\ updates d' = [] /\ results d' = None
  /\ mainButton d' = StartButton (startDisabled d)
  /\ (forall detail, reply = StartNotOk detail ->
        error d' = JS.or_string detail "Failed to start" /\ error d' <> "").
Proof.
  intros Had Hrep. cbv zeta. run_start Had.
  destruct reply as [id | detail | message]; [now elim (Hrep id) | |];
    cbn; repeat (split; [reflexivity |]).
  - intros det E. injection E as <-. split; [reflexivity |].
    unfold JS.or_string. destruct detail as [v |]; [| discriminate].
    destruct (JS.not_string v) eqn:Ev; [discriminate |].
    now apply not_string_false.
  - intros det E. discriminate.
Qed.

Lemma rejected_start_witness :
  let d := setUrl "https://example.com" initial in
  admitted d
  /\ (forall id, StartNotOk (Some "Quota exceeded") <> StartOk id)
  /\ isRunning (fst (startTest None (StartNotOk (Some "Quota exceeded")) None d))
     = false
  /\ error (fst (startTest None (StartNotOk (Some "Quota exceeded")) None d))
     = "Quota exceeded".
Proof.
  cbv zeta.
  assert (Had : admitted (setUrl "https://example.com" initial)).
  { unfold admitted. simpl. repeat split; try discriminate. now right. }
  assert (Hrep : forall id, StartNotOk (Some "Quota exceeded") <> StartOk id)
    by discriminate.
  pose proof (rejected_start None (StartNotOk (Some "Quota exceeded")) None _
                Had Hrep) as H.
  cbv zeta in H. destruct H as (_ & Hrun & _ & _ & _ & _ & _ & Herr).
  split; [exact Had |]. split; [exact Hrep |]. split; [exact Hrun |].
  exact (proj1 (Herr _ eq_refl)).
Defined.

(** Whatever happens, [startTest] leaves the URL field and the selection as
    they are, and it replaces the usage record only after a start answered
    with a run id, for a signed-in user, by the record the refresh
    returned. *)
Theorem startTest_keeps_form
    (user : option string) (reply : StartReply) (fresh : option Usage)
    (d : Dashboard) :
  url (fst (startTest user reply fresh d)) = url d
  /\ selectedAgents (fst (startTest user reply fresh d)) = selectedAgents d
  /\ (usage (fst (startTest user reply fresh d)) <> usage d ->
      (exists id, reply = StartOk id) /\ user <> None
      /\ fresh = usage (fst (startTest user reply fresh d))
      /\ fresh <> None).
Proof.
  destruct (admitted_dec d) as [Had | Hno].
  - run_start Had.
    destruct reply as [id | detail | message];
      [destruct user as [uid |];
       [destruct (JS.not_string uid); [| destruct fresh as [u |]] |] |..]; cbn;
      repeat (split; [reflexivity |]); intros Hch;
      try (now elim Hch).
    repeat split; try discriminate. now exists id.
  - destruct (startTest_not_admitted user reply fresh d Hno)
      as [E | (m & _ & E)]; rewrite E; cbn;
      repeat (split; [reflexivity |]); intros Hch; now elim Hch.
Qed.

Lemma startTest_keeps_form_witness :
  let d := setUrl "https://example.com" initial in
  let u := {| tests_used := 1; tests_limit := 3; tests_remaining := 2;
              beta_active := true; beta_ends := "2024-12-13" |} in
  usage (fst (startTest (Some "u1") (StartOk 4) (Some u) d)) <> usage d
  /\ Some u = usage (fst (startTest (Some "u1") (StartOk 4) (Some u) d)).
Proof.
  cbv zeta.
  assert (Hch : usage (fst (startTest (Some "u1") (StartOk 4)
                              (Some {| tests_used := 1; tests_limit := 3;
                                       tests_remaining := 2; beta_active := true;
                                       beta_ends := "2024-12-13" |})
                              (setUrl "https://example.com" initial)))
                <> usage (setUrl "https://example.com" initial))
    by discriminate.
  split; [exact Hch |].
  exact (proj1 (proj2 (proj2 (proj2 (proj2 (startTest_keeps_form _ _ _ _)) Hch)))).
Defined.

(** ** Frames of a run *)

Ltac run_frame :=
  unfold onmessage, fetchResults, seq, set, send, skip; cbn [fst snd app].

(** No frame ever changes the URL field, the selection, the stored run id,
    the usage record or the active tab.  The only frame that makes the
    handler send something, and the only one that can change [isRunning], is
    [test_completed]: it triggers one fetch of the results of the run.  In
    particular a [test_failed] frame leaves the page running. *)
Theorem onmessage_scope
    (id : Z) (update : Update) (reply : option TestResults) (d : Dashboard) :
  let d' := fst (onmessage id update reply d) in
  let out := snd (onmessage id update reply d) in
  url d' = url d /\ selectedAgents d' = selectedAgents d
  /\ testId d' = testId d /\ usage d' = usage d /\ activeTab d' = activeTab d
  /\ (out <> [] <-> u_type update = "test_completed")
  /\ (u_type update = "test_completed" -> out = [GetResults id])
  /\ (isRunning d' <> isRunning d -> u_type update = "test_completed")
  /\ (results d' <> results d -> u_type update = "test_completed").
Proof.
  cbv zeta. run_frame.
  destruct (JS.includes ["keepalive"; "pong"; "connected"] (u_type update))
    eqn:Hc.
  - cbn. repeat (split; [reflexivity |]).
    assert (Hne : u_type update <> "test_completed").
    { intros E. rewrite E in Hc. discriminate. }
    repeat split; intros H; try contradiction; now elim H.
  - destruct (String.eqb_spec (u_type update) "test_completed") as [E | Hne].
    + destruct (u_type update =? "test_cancelling"), reply; cbn;
        repeat (split; [reflexivity |]); repeat split; auto; discriminate.
    + destruct (u_type update =? "test_cancelling"); cbn;
        repeat (split; [reflexivity |]);
        repeat split; intros H; try contradiction; now elim H.
Qed.

Lemma onmessage_scope_witness :
  let failed := {| u_type := "test_failed"; u_persona := None;
                   u_thought := None; u_phase := None; u_bug := None;
                   u_bugs_count := None; u_quality_score := None;
                   u_message := Some "crash" |} in
  let d := setIsRunning true initial in
  u_type failed <> "test_completed"
  /\ isRunning (fst (onmessage 4 failed None d)) = true
  /\ snd (onmessage 4 failed None d) = [].
Proof.
  cbv zeta.
  pose proof (onmessage_scope 4
                {| u_type := "test_failed"; u_persona := None;
                   u_thought := None; u_phase := None; u_bug := None;
                   u_bugs_count := None; u_quality_score := None;
                   u_message := Some "crash" |} None
                (setIsRunning true initial)) as H.
  cbv zeta in H. destruct H as (_ & _ & _ & _ & _ & Hout & _).
  split; [discriminate |]. split; [reflexivity |].
  destruct (snd (onmessage 4 _ None (setIsRunning true initial))) eqn:E;
    [reflexivity |].
  assert (Hne : r :: l <> []) by discriminate.
  apply Hout in Hne. discriminate.
Defined.

(** A [test_completed] frame ends the run on the page: it is appended to the
    feed, the page is no longer running nor cancelling, the Start button is
    back, and the results of the run are fetched once.  When the fetch
    succeeds the snapshot replaces the results and the error message is
    kept; when it fails the results stay as they were and the error message
    says so. *)
Theorem test_completed_frame
    (id : Z) (update : Update) (reply : option TestResults) (d : Dashboard) :
  u_type update = "test_completed" ->
  let d' := fst (onmessage id update reply d) in
  snd (onmessage id update reply d) = [GetResults id]
  /\ updates d' = updates d ++ [update]
  /\ isRunning d' = false /\ isCancelling d' = false
  /\ mainButton d' = StartButton (startDisabled d)
  /\ match reply with
     | Some t => results d' = Some t /\ error d' = error d
     | None => results d' = results d /\ error d' = "Failed to fetch results"
     end.
Proof.
  intros Ht. cbv zeta. run_frame. rewrite Ht. cbn.
  destruct reply; cbn; repeat split.
Qed.

Lemma test_completed_frame_witness :
  let done := {| u_type := "test_completed"; u_persona := None;
                 u_thought := None; u_phase := None; u_bug := None;
                 u_bugs_count := None; u_quality_score := None;
                 u_message := None |} in
  u_type done = "test_completed"
  /\ isRunning (fst (onmessage 4 done (Some shadowed) (setIsRunning true initial)))
     = false
  /\ results (fst (onmessage 4 done (Some shadowed) (setIsRunning true initial)))
     = Some shadowed.
Proof.
  cbv zeta.
  pose proof (test_completed_frame 4
                {| u_type := "test_completed"; u_persona := None;
                   u_thought := None; u_phase := None; u_bug := None;
                   u_bugs_count := None; u_quality_score := None;
                   u_message := None |} (Some shadowed)
                (setIsRunning true initial) eq_refl) as H.
  cbv zeta in H. destruct H as (_ & _ & Hrun & _ & _ & Hres & _).
  split; [reflexivity |]. split; [exact Hrun | exact Hres].
Defined.

(** A [test_cancelling] frame is appended to the feed and marks the page as
    cancelling, which disables the Stop button of a running page; it sends
    nothing and changes neither [isRunning] nor the results. *)
Theorem test_cancelling_frame
    (id : Z) (update : Update) (reply : option TestResults) (d : Dashboard) :
  u_type update = "test_cancelling" ->
  let d' := fst (onmessage id update reply d) in
  snd (onmessage id update reply d) = []
  /\ updates d' = updates d ++ [update]
  /\ isCancelling d' = true
  /\ isRunning d' = isRunning d /\ results d' = results d
  /\ error d' = error d
  /\ (isRunning d = true -> mainButton d' = StopButton true).
Proof.
  intros Ht. cbv zeta. run_frame. rewrite Ht. cbn.
  repeat (split; [reflexivity |]).
  intros Hrun. unfold mainButton. cbn. now rewrite Hrun.
Qed.

Lemma test_cancelling_frame_witness :
  let stopping := {| u_type := "test_cancelling"; u_persona := None;
                     u_thought := None; u_phase := None; u_bug := None;
                     u_bugs_count := None; u_quality_score := None;
                     u_message := Some "Stopping" |} in
  u_type stopping = "test_cancelling"
  /\ isRunning (setIsRunning true initial) = true
  /\ mainButton (fst (onmessage 4 stopping None (setIsRunning true initial)))
     = StopButton true.
Proof.
  cbv zeta.
  pose proof (test_cancelling_frame 4
                {| u_type := "test_cancelling"; u_persona := None;
                   u_thought := None; u_phase := None; u_bug := None;
                   u_bugs_count := None; u_quality_score := None;
                   u_message := Some "Stopping" |} None
                (setIsRunning true initial) eq_refl) as H.
  cbv zeta in H.
  split; [reflexivity |]. split; [reflexivity |].
  exact (proj2 (proj2 (proj2 (proj2 (proj2 (proj2 H))))) eq_refl).
Defined.

(** The feed of a run holds the events of that run only: after an accepted
    start, whatever the feed held before, the feed after any stream of
    frames is the list of the frames that are not control frames, in their
    order of arrival. *)
Theorem feed_of_a_run
    (user : option string) (fresh : option Usage) (id : Z) (d : Dashboard)
    (frames : list (Update * option TestResults)) :
  admitted d ->
  updates (receive id frames (fst (startTest user (StartOk id) fresh d)))
  = filter (fun u => negb (control u)) (map fst frames).
Proof.
  intros Had. rewrite feed_after_stream.
  replace (updates (fst (startTest user (StartOk id) fresh d))) with
    (@nil Update); [reflexivity |].
  run_start Had.
  destruct user as [uid |];
    [destruct (JS.not_string uid); [| destruct fresh] |]; reflexivity.
Qed.

Lemma feed_of_a_run_witness :
  let d := setUrl "https://example.com" initial in
  let frame t := {| u_type := t; u_persona := None; u_thought := None;
                    u_phase := None; u_bug := None; u_bugs_count := None;
                    u_quality_score := None; u_message := None |} in
  admitted d
  /\ map u_type
       (updates (receive 4 [(frame "connected", None); (frame "phase", None);
                            (frame "keepalive", None);
                            (frame "test_completed", Some shadowed)]
                   (fst (startTest None (StartOk 4) None d))))
     = ["phase"; "test_completed"].
Proof.
  cbv zeta.
  assert (Had : admitted (setUrl "https://example.com" initial)).
  { unfold admitted. simpl. repeat split; try discriminate. now right. }
  split; [exact Had |].
  rewrite (feed_of_a_run None None 4 _ _ Had). reflexivity.
Defined.

(** ** Stopping a run *)

(** [stopTest] does nothing without a stored run id (none, or [0]).
    Otherwise it marks the page as cancelling and sends one cancel request
    for the stored id; it changes neither [isRunning], the feed nor the
    results, so the run ends on the page only when its [test_completed]
    frame arrives; the error message changes only if the request failed. *)
Theorem stopTest_effects (failed : bool) (d : Dashboard) :
  (testId d = None \/ testId d = Some 0%Z -> stopTest failed d = (d, []))
  /\ (forall id, testId d = Some id -> id <> 0%Z ->
        let d' := fst (stopTest failed d) in
        snd (stopTest failed d) = [PostCancel id]
        /\ isCancelling d' = true
        /\ isRunning d' = isRunning d /\ updates d' = updates d
        /\ results d' = results d /\ testId d' = testId d
        /\ (failed = false -> error d' = error d)
        /\ (failed = true -> error d' = "Failed to cancel test")
        /\ (isRunning d = true -> mainButton d' = StopButton true)).
Proof.
  split.
  - intros [H | H]; unfold stopTest; rewrite H; reflexivity.
  - intros id Hid Hne. cbv zeta. unfold stopTest. rewrite Hid.
    destruct (Z.eqb_spec id 0) as [E | _]; [contradiction |].
    unfold seq, set, send, skip. destruct failed; cbn;
      repeat (split; [reflexivity |]); repeat split; auto;
      try discriminate;
      intros Hrun; unfold mainButton; cbn; now rewrite Hrun.
Qed.

Lemma stopTest_effects_witness :
  let d := setTestId (Some 4%Z) (setIsRunning true initial) in
  testId d = Some 4%Z /\ 4%Z <> 0%Z
  /\ snd (stopTest false d) = [PostCancel 4]
  /\ isCancelling (fst (stopTest false d)) = true.
Proof.
  cbv zeta.
  assert (Hne : 4%Z <> 0%Z) by discriminate.
  pose proof (proj2 (stopTest_effects false
                       (setTestId (Some 4%Z) (setIsRunning true initial)))
                4%Z eq_refl Hne) as H.
  cbv zeta in H. destruct H as (Hout & Hc & _).
  split; [reflexivity |]. split; [exact Hne |]. split; [exact Hout | exact Hc].
Defined.

Lemma sortedBugs_without_inherited_witness :
  let t := {| tr_id := 2; tr_url := "https://example.com";
              tr_status := "completed"; tr_summary := None;
              tr_results :=
                [ {| persona := "priya"; status := "completed";
                     bugs_found := [report "low"; report "warning";
                                    report "info"; report "high"];
                     quality_score := 6; summary := "" |};
                  {| persona := "alex"; status := "completed";
                     bugs_found := [report "critical"; report "low"];
                     quality_score := 4; summary := "" |} ] |} in
  (forall i, In i (allBugs (Some t)) -> inherited (severity (bug i)) = false)
  /\ StronglySorted (key_le issue_rank) (sortedBugs (Some t))
  /\ filter (keyed issue_rank 4) (sortedBugs (Some t))
     = filter (keyed issue_rank 4) (allBugs (Some t))
  /\ map (fun i => (severity (bug i), agent i)) (sortedBugs (Some t))
     = [("critical", "alex"); ("high", "priya"); ("low", "priya");
        ("low", "alex"); ("warning", "priya"); ("info", "priya")].
Proof.
  cbv zeta.
  match goal with
  | |- (forall i, In i (allBugs (Some ?t)) -> _) /\ _ =>
      assert (Hno : forall i, In i (allBugs (Some t)) ->
                              inherited (severity (bug i)) = false)
  end.
  { simpl. intros i H.
    repeat (destruct H as [<- | H]; [reflexivity |]). contradiction. }
  destruct (sortedBugs_without_inherited _ Hno)
    as (_ & Hsorted & _ & _ & Hrank & _).
  split; [exact Hno |]. split; [exact Hsorted |].
  split; [exact (Hrank 4%Z) | reflexivity].
Defined.

(** ** The aggregate of a stopped run *)



